(** * CPA_RAG_Agent: the document pipeline and the embedding service

    A shallow embedding of the Python sources

      - [python-processor/document_processor.py]  (class DocumentProcessor)
      - [python-processor/azure_search.py]        (class AzureSearchClient)
      - [python-processor/main.py]                (process_pdf, create_index, delete_index)
      - [backend/embeddings/app.py]               (the Flask handlers)

    Python code that can raise is a computation in a state-and-exception
    monad over a [world]: the state of everything outside the program (file
    system, model, clock, remote search service) together with the list of
    calls the program has issued to it.  The third-party libraries (PyPDF2,
    langchain, sentence-transformers, the Azure SDK) are not part of the
    repository: they are the fields of a record [Externals], and every
    theorem below holds for every such record. *)

From Stdlib Require Import Ascii String PrimFloat DecimalString DecimalPos DecimalZ.
From stdpp Require Import gmap strings list fin_maps.

Set Warnings "-register-all".
Open Scope string_scope.

(** ** Python strings

    A [str] is a Rocq [string] holding its UTF-8 bytes. *)
Module Str.

Definition nl : string := String (ascii_of_nat 10) "".

(** A byte [10xxxxxx] continues a code point started earlier. *)
Definition is_continuation (c : ascii) : bool :=
  match c with Ascii _ _ _ _ _ _ b6 b7 => b7 && negb b6 end.

(** [len(s)]: the number of code points. *)
Fixpoint len (s : string) : nat :=
  match s with
  | EmptyString => 0
  | String c s' => (if is_continuation c then 0 else 1) + len s'
  end.

(** [str(n)] for an [int]. *)
Definition str_int (z : Z) : string := NilZero.string_of_int (Z.to_int z).

(** [s.replace(old, new)] where [old] and [new] are one ASCII character
    each: such a byte never occurs inside a longer code point. *)
Fixpoint replace (old new : ascii) (s : string) : string :=
  match s with
  | EmptyString => EmptyString
  | String c s' => String (if Ascii.eqb c old then new else c) (replace old new s')
  end.

(** The encodings of the code points Python's [str.isspace] accepts:
    U+0009..U+000D, U+001C..U+0020, U+0085, U+00A0, U+1680,
    U+2000..U+200A, U+2028, U+2029, U+202F, U+205F, U+3000. *)
Definition bytes (l : list nat) : string := string_of_list_ascii (map ascii_of_nat l).

Definition whitespace : list string :=
  map (fun n => bytes [n]) [9; 10; 11; 12; 13; 28; 29; 30; 31; 32]
  ++ [bytes [194; 133]; bytes [194; 160]; bytes [225; 154; 128]]
  ++ map (fun n => bytes [226; 128; n])
       [128; 129; 130; 131; 132; 133; 134; 135; 136; 137; 138; 168; 169; 175]
  ++ [bytes [226; 129; 159]; bytes [227; 128; 128]].

(** The rest of [s] after the first of the prefixes [ps] that starts it. *)
Fixpoint drop_prefix (p s : string) : option string :=
  match p, s with
  | EmptyString, _ => Some s
  | String a p', String b s' => if Ascii.eqb a b then drop_prefix p' s' else None
  | String _ _, EmptyString => None
  end.

Fixpoint drop_any_prefix (ps : list string) (s : string) : option string :=
  match ps with
  | [] => None
  | p :: ps' =>
      match drop_prefix p s with
      | Some r => Some r
      | None => drop_any_prefix ps' s
      end
  end.

(** Every removed whitespace prefix is at least one byte long, so
    [String.length s] steps are enough. *)
Fixpoint lstrip_fuel (ws : list string) (fuel : nat) (s : string) : string :=
  match fuel with
  | O => s
  | S fuel' =>
      match drop_any_prefix ws s with
      | Some r => lstrip_fuel ws fuel' r
      | None => s
      end
  end.

Definition rev (s : string) : string :=
  string_of_list_ascii (List.rev (list_ascii_of_string s)).

Definition lstrip (s : string) : string :=
  lstrip_fuel whitespace (String.length s) s.

(** Stripping on the right is stripping, on the left of the reversed
    string, the reversed encodings. *)
Definition rstrip (s : string) : string :=
  rev (lstrip_fuel (map rev whitespace) (String.length s) (rev s)).

(** [s.strip()] *)
Definition strip (s : string) : string := rstrip (lstrip s).

(** [sub in s] for two strings. *)
Fixpoint contains (sub s : string) : bool :=
  match drop_prefix sub s with
  | Some _ => true
  | None =>
      match s with
      | EmptyString => false
      | String _ s' => contains sub s'
      end
  end.

(** ['%0*d' % (width, n)] for [n >= 0]. *)
Definition zfill (width : nat) (z : Z) : string :=
  let s := str_int z in
  string_of_list_ascii (replicate (width - String.length s) "0"%char) ++ s.

(** [not s] *)
Definition is_empty (s : string) : bool :=
  match s with EmptyString => true | _ => false end.

End Str.

(** ** Python values *)

(** What the result dictionaries of [AzureSearchClient] hold: their literals
    in the source bind each key to a [bool], an [int] or a [str]. *)
Inductive scalar :=
| SBool (b : bool)
| SInt (z : Z)
| SStr (s : string).

(** A decoded JSON document, as [request.get_json()] and the search service
    return it. *)
Inductive pyobj :=
| VNone
| VBool (b : bool)
| VInt (z : Z)
| VFloat (f : float)
| VStr (s : string)
| VList (l : list pyobj)
| VDict (d : gmap string pyobj).

Module Py.

(** Truth value of an object, as [if x] and [not x] test it. *)
Definition truthy (v : pyobj) : bool :=
  match v with
  | VNone => false
  | VBool b => b
  | VInt z => negb (z =? 0)%Z
  | VFloat f => negb (PrimFloat.eqb f 0%float)
  | VStr s => negb (Str.is_empty s)
  | VList l => match l with [] => false | _ => true end
  | VDict d => negb (bool_decide (d = ∅))
  end.

Definition scalar_truthy (v : scalar) : bool :=
  match v with
  | SBool b => b
  | SInt z => negb (z =? 0)%Z
  | SStr s => negb (Str.is_empty s)
  end.

(** How an f-string renders [{v}]. *)
Definition format (v : scalar) : string :=
  match v with
  | SBool true => "True"
  | SBool false => "False"
  | SInt z => Str.str_int z
  | SStr s => s
  end.

(** [isinstance(v, str)] and [isinstance(v, list)] *)
Definition is_str (v : pyobj) : bool := match v with VStr _ => true | _ => false end.
Definition is_list (v : pyobj) : bool := match v with VList _ => true | _ => false end.

(** The name Python gives the type of [v] in its error messages. *)
Definition type_name (v : pyobj) : string :=
  match v with
  | VNone => "NoneType"
  | VBool _ => "bool"
  | VInt _ => "int"
  | VFloat _ => "float"
  | VStr _ => "str"
  | VList _ => "list"
  | VDict _ => "dict"
  end.

(** [s == v] for a string [s]: only a [str] equals a [str]. *)
Definition eq_str (s : string) (v : pyobj) : bool :=
  match v with VStr t => String.eqb s t | _ => false end.

End Py.

(** ** Exceptions

    An instance of a subclass of [Exception]: its class and what [str(e)]
    gives.  (What [except Exception] does not catch, [KeyboardInterrupt] and
    [SystemExit], is raised by the interpreter and not by the calls modelled
    here.) *)
Record exn := { exn_class : string; exn_str : string }.

Definition Exception (msg : string) : exn := {| exn_class := "Exception"; exn_str := msg |}.
Definition ValueError (msg : string) : exn := {| exn_class := "ValueError"; exn_str := msg |}.
Definition TypeError (msg : string) : exn := {| exn_class := "TypeError"; exn_str := msg |}.
Definition AttributeError (msg : string) : exn :=
  {| exn_class := "AttributeError"; exn_str := msg |}.
(** [str(KeyError(k))] is [repr(k)]. *)
Definition KeyError (key : string) : exn :=
  {| exn_class := "KeyError"; exn_str := "'" ++ key ++ "'" |}.

Inductive outcome (A : Type) :=
| Returned (a : A)
| Raised (e : exn).
Arguments Returned {A} a.
Arguments Raised {A} e.

(** ** The data sent to the search service *)

(** [datetime]: a naive date and time. *)
Record datetime := {
  year : Z; month : Z; day : Z;
  hour : Z; minute : Z; second : Z; microsecond : Z }.

(** [d.isoformat()]: the microseconds are printed when they are not zero. *)
Definition isoformat (d : datetime) : string :=
  Str.zfill 4 (year d) ++ "-" ++ Str.zfill 2 (month d) ++ "-" ++ Str.zfill 2 (day d)
  ++ "T" ++ Str.zfill 2 (hour d) ++ ":" ++ Str.zfill 2 (minute d) ++ ":"
  ++ Str.zfill 2 (second d)
  ++ (if (microsecond d =? 0)%Z then "" else "." ++ Str.zfill 6 (microsecond d)).

(** The dictionary [upload_documents] builds for one chunk. *)
Module Document.
Record t := {
  id : string;
  content : string;
  source_file : string;
  chunk_index : Z;
  upload_date : string;
  content_vector : list float }.
End Document.

Inductive data_type :=
| EdmString
| EdmInt32
| EdmDateTimeOffset
| EdmSingle
| Collection (elem : data_type).

(** The three field constructors of the SDK with the keyword arguments the
    source passes ([key] and [filterable] are [False] when it passes none). *)
Inductive field :=
| SimpleField (name : string) (type : data_type) (key filterable : bool)
| SearchableField (name : string) (type : data_type) (filterable : bool)
| SearchField (name : string) (type : data_type) (searchable : bool)
    (vector_search_dimensions : Z) (vector_search_profile_name : string).

Record HnswParameters := {
  hnsw_m : Z; hnsw_efConstruction : Z; hnsw_efSearch : Z; hnsw_metric : string }.

Record HnswAlgorithmConfiguration := {
  algorithm_name : string; algorithm_parameters : HnswParameters }.

Record VectorSearchProfile := {
  profile_name : string; algorithm_configuration_name : string }.

Record VectorSearch := {
  algorithms : list HnswAlgorithmConfiguration; profiles : list VectorSearchProfile }.

Record SearchIndex := {
  si_name : string; si_fields : list field; si_vector_search : VectorSearch }.

(** One entry of [vector_queries] and the arguments of [SearchClient.search]. *)
Record VectorQuery := {
  vq_vector : list float; vq_k_nearest_neighbors : Z; vq_fields : string }.

Record SearchRequest := {
  search_text : option string; vector_queries : list VectorQuery; select : list string }.

(** ** The outside world *)

(** A call the program issues to one of its libraries, with its arguments. *)
Inductive call :=
| OpenPdf (pdf_path : string)
| SplitText (chunk_size chunk_overlap : Z) (text : string)
| EncodeOne (sentence : string) (normalize_embeddings : bool)
| EncodeMany (sentences : list pyobj) (normalize_embeddings : bool)
| IndexDelete (index_name : string)
| IndexCreateOrUpdate (index : SearchIndex)
| DocumentsUpload (index_name : string) (documents : list Document.t)
| DocumentsSearch (index_name : string) (request : SearchRequest).

(** The calls that reach the remote search service. *)
Definition is_remote (c : call) : bool :=
  match c with
  | IndexDelete _ | IndexCreateOrUpdate _ | DocumentsUpload _ _ | DocumentsSearch _ _ => true
  | _ => false
  end.

(** The libraries, over a state [Σ] of the world they act on.  Each answers
    with a value or raises, and leaves the world in a new state.
    - [pdf_pages]: [open(path, 'rb')], [PyPDF2.PdfReader(file)] and, for each
      of its pages in order, what [page.extract_text()] gives;
    - [split_text]: [RecursiveCharacterTextSplitter(chunk_size, chunk_overlap,
      length_function=len, separators=["\n\n", "\n", ". ", " ", ""]).split_text];
    - [encode_one], [encode_many]: [SentenceTransformer.encode] on a [str] (a
      vector) and on a list (a matrix, one row per element), with its
      [normalize_embeddings] flag;
    - [utcnow]: [datetime.utcnow()];
    - the last four: [SearchIndexClient.delete_index],
      [SearchIndexClient.create_or_update_index], [SearchClient.upload_documents]
      and [SearchClient.search] with its results read to the end. *)
Record Externals (Σ : Type) := {
  pdf_pages : string -> Σ -> outcome (list (outcome string)) * Σ;
  split_text : Z -> Z -> string -> Σ -> outcome (list string) * Σ;
  encode_one : string -> bool -> Σ -> outcome (list float) * Σ;
  encode_many : list pyobj -> bool -> Σ -> outcome (list (list float)) * Σ;
  utcnow : Σ -> datetime;
  index_delete : string -> Σ -> outcome unit * Σ;
  index_create_or_update : SearchIndex -> Σ -> outcome SearchIndex * Σ;
  documents_upload : string -> list Document.t -> Σ -> outcome unit * Σ;
  documents_search : string -> SearchRequest -> Σ -> outcome (list (gmap string pyobj)) * Σ }.
Arguments pdf_pages {Σ} _ _ _.
Arguments split_text {Σ} _ _ _ _ _.
Arguments encode_one {Σ} _ _ _ _.
Arguments encode_many {Σ} _ _ _ _.
Arguments utcnow {Σ} _ _.
Arguments index_delete {Σ} _ _ _.
Arguments index_create_or_update {Σ} _ _ _.
Arguments documents_upload {Σ} _ _ _ _.
Arguments documents_search {Σ} _ _ _ _.

(** The world: its state and the calls issued so far, oldest first. *)
Record world (Σ : Type) := World { outside : Σ; issued : list call }.
Arguments World {Σ} _ _.
Arguments outside {Σ} _.
Arguments issued {Σ} _.

(** ** Computations that read and change the world and may raise *)
Definition M (Σ A : Type) : Type := world Σ -> outcome A * world Σ.

Section Monad.
Context {Σ : Type}.

Definition ret {A} (a : A) : M Σ A := fun w => (Returned a, w).

Definition raise {A} (e : exn) : M Σ A := fun w => (Raised e, w).

Definition bind {A B} (m : M Σ A) (k : A -> M Σ B) : M Σ B :=
  fun w =>
    match m w with
    | (Returned a, w') => k a w'
    | (Raised e, w') => (Raised e, w')
    end.

(** [try: body / except Exception as e: handler] *)
Definition try_except {A} (body : M Σ A) (handler : exn -> M Σ A) : M Σ A :=
  fun w =>
    match body w with
    | (Returned a, w') => (Returned a, w')
    | (Raised e, w') => handler e w'
    end.

(** A value computed without the world. *)
Definition lift {A} (o : outcome A) : M Σ A := fun w => (o, w).

(** Issue the call [c], answered by the library function [f]. *)
Definition call_out {A} (c : call) (f : Σ -> outcome A * Σ) : M Σ A :=
  fun w =>
    let (r, s) := f (outside w) in
    (r, World s (issued w ++ [c])).

(** Read the world without a call to record. *)
Definition observe {A} (f : Σ -> A) : M Σ A := fun w => (Returned (f (outside w)), w).

End Monad.

Notation "x <- m ;; k" := (bind m (fun x => k))
  (at level 100, m at next level, right associativity).

(** [d[key]] on a dictionary. *)
Definition getitem {Σ V} (d : gmap string V) (key : string) : M Σ V :=
  match d !! key with
  | Some v => ret v
  | None => raise (KeyError key)
  end.

(** ** document_processor.py *)
Module DocumentProcessor.

(** The configuration a processor keeps; its splitter and its model are
    reached through [Externals]. *)
Record t := { chunk_size : Z; chunk_overlap : Z }.

(** [DocumentProcessor()]: [chunk_size=1000, chunk_overlap=200]. *)
Definition default : t := {| chunk_size := 1000; chunk_overlap := 200 |}.

(** The loop over [enumerate(pdf_reader.pages)]: [text] grows by a page marker
    and the page's text for every page whose text is not empty; a page whose
    extraction raises ends the loop. *)
Fixpoint read_pages (page_num : nat) (pages : list (outcome string)) (text : string)
  : outcome string :=
  match pages with
  | [] => Returned text
  | Raised e :: _ => Raised e
  | Returned page_text :: rest =>
      read_pages (S page_num) rest
        (if Str.is_empty page_text then text
         else (text ++ (Str.nl ++ Str.nl ++ "--- Page "
                        ++ Str.str_int (Z.of_nat page_num + 1) ++ " ---" ++ Str.nl ++ Str.nl))
              ++ page_text)
  end.

Section Methods.
Context {Σ : Type} (E : Externals Σ).

Definition extract_text_from_pdf (self : t) (pdf_path : string) : M Σ string :=
  try_except
    (pages <- call_out (OpenPdf pdf_path) (pdf_pages E pdf_path) ;;
     text <- lift (read_pages 0 pages "") ;;
     ret (Str.strip text))
    (fun e => raise (Exception ("Error extracting text from PDF: " ++ exn_str e))).

Definition chunk_text (self : t) (text : string) : M Σ (list string) :=
  try_except
    (chunks <- call_out (SplitText (chunk_size self) (chunk_overlap self) text)
                (split_text E (chunk_size self) (chunk_overlap self) text) ;;
     ret chunks)
    (fun e => raise (Exception ("Error chunking text: " ++ exn_str e))).

(** [encode(chunks, show_progress_bar=True, convert_to_numpy=True)]: the
    call leaves [normalize_embeddings] at its default, [False]. *)
Definition generate_embeddings (self : t) (chunks : list string) : M Σ (list (list float)) :=
  try_except
    (embeddings <- call_out (EncodeMany (VStr <$> chunks) false)
                    (encode_many E (VStr <$> chunks) false) ;;
     ret embeddings)
    (fun e => raise (Exception ("Error generating embeddings: " ++ exn_str e))).

End Methods.
End DocumentProcessor.

(** ** azure_search.py *)
Module AzureSearchClient.

Record t := { endpoint : string; api_key : string; index_name : string }.

(** The three constructors of the SDK that [__init__] calls, each of which
    returns or raises: [AzureKeyCredential(api_key)], [SearchIndexClient(
    endpoint, credential)] and [SearchClient(endpoint, index_name,
    credential)], the credential standing for the key it was made of. *)
Record sdk := {
  AzureKeyCredential : string -> outcome unit;
  SearchIndexClient : string -> string -> outcome unit;
  SearchClient : string -> string -> string -> outcome unit }.

(** [__init__]: the configuration comes from the environment; the index
    name defaults to [cpa-documents], and a missing (or empty) endpoint or
    key is an error.  The credential and the two clients are then built, in
    this order, and an exception of a constructor is the constructor's. *)
Definition init (SDK : sdk) (environ : gmap string string) : outcome t :=
  let endpoint := environ !! "AZURE_SEARCH_ENDPOINT" in
  let api_key := environ !! "AZURE_SEARCH_API_KEY" in
  let index_name := default "cpa-documents" (environ !! "AZURE_SEARCH_INDEX_NAME") in
  match endpoint, api_key with
  | Some e, Some k =>
      if Str.is_empty e || Str.is_empty k
      then Raised (ValueError "Missing Azure Search credentials in .env file")
      else
        match AzureKeyCredential SDK k with
        | Raised x => Raised x
        | Returned _ =>
            match SearchIndexClient SDK e k with
            | Raised x => Raised x
            | Returned _ =>
                match SearchClient SDK e index_name k with
                | Raised x => Raised x
                | Returned _ =>
                    Returned {| endpoint := e; api_key := k; index_name := index_name |}
                end
            end
        end
  | _, _ => Raised (ValueError "Missing Azure Search credentials in .env file")
  end.

(** The key of the document of chunk [idx]:
    [f"{source_file.replace('.', '_')}_{idx}"]. *)
Definition document_id (source_file : string) (idx : nat) : string :=
  Str.replace "." "_" source_file ++ "_" ++ Str.str_int (Z.of_nat idx).

(** The body of the loop over [enumerate(zip(chunks, embeddings))]. *)
Definition document (source_file upload_time : string) (idx : nat)
  (pair : string * list float) : Document.t :=
  {| Document.id := document_id source_file idx;
     Document.content := pair.1;
     Document.source_file := source_file;
     Document.chunk_index := Z.of_nat idx;
     Document.upload_date := upload_time;
     Document.content_vector := pair.2 |}.

Definition build_documents (chunks : list string) (embeddings : list (list float))
  (source_file upload_time : string) : list Document.t :=
  imap (document source_file upload_time) (zip chunks embeddings).

(** The two shapes of a result dictionary. *)
Definition failure (e : exn) : gmap string scalar :=
  {[ "success" := SBool false; "error" := SStr (exn_str e) ]}.

Definition vector_search : VectorSearch :=
  {| algorithms :=
       [ {| algorithm_name := "hnsw-config";
            algorithm_parameters :=
              {| hnsw_m := 4; hnsw_efConstruction := 400; hnsw_efSearch := 500;
                 hnsw_metric := "cosine" |} |} ];
     profiles :=
       [ {| profile_name := "vector-profile";
            algorithm_configuration_name := "hnsw-config" |} ] |}.

Definition fields (embedding_dim : Z) : list field :=
  [ SimpleField "id" EdmString true false;
    SearchableField "content" EdmString false;
    SearchableField "source_file" EdmString true;
    SimpleField "chunk_index" EdmInt32 false true;
    SimpleField "upload_date" EdmDateTimeOffset false true;
    SearchField "content_vector" (Collection EdmSingle) true embedding_dim "vector-profile" ].

(** One entry of the list [search_similar] returns. *)
Definition hit (result : gmap string pyobj) : outcome (gmap string pyobj) :=
  match result !! "content", result !! "source_file", result !! "chunk_index" with
  | Some content, Some source, Some chunk =>
      Returned {[ "content" := content; "source" := source; "chunk" := chunk;
                  "score" := default (VInt 0) (result !! "@search.score") ]}
  | None, _, _ => Raised (KeyError "content")
  | _, None, _ => Raised (KeyError "source_file")
  | _, _, None => Raised (KeyError "chunk_index")
  end.

Fixpoint hits (results : list (gmap string pyobj)) : outcome (list (gmap string pyobj)) :=
  match results with
  | [] => Returned []
  | result :: rest =>
      match hit result with
      | Raised e => Raised e
      | Returned h =>
          match hits rest with
          | Raised e => Raised e
          | Returned hs => Returned (h :: hs)
          end
      end
  end.

Section Methods.
Context {Σ : Type} (E : Externals Σ).

Definition delete_index (self : t) : M Σ (gmap string scalar) :=
  try_except
    (_ <- call_out (IndexDelete (index_name self)) (index_delete E (index_name self)) ;;
     ret {[ "success" := SBool true;
            "message" := SStr ("Index '" ++ index_name self ++ "' deleted successfully") ]})
    (fun e => ret (failure e)).

Definition create_index (self : t) (embedding_dim : Z) : M Σ (gmap string scalar) :=
  try_except
    (let index :=
       {| si_name := index_name self;
          si_fields := fields embedding_dim;
          si_vector_search := vector_search |} in
     result <- call_out (IndexCreateOrUpdate index) (index_create_or_update E index) ;;
     ret {[ "success" := SBool true;
            "index_name" := SStr (si_name result);
            "message" :=
              SStr ("Index '" ++ si_name result ++ "' created/updated successfully") ]})
    (fun e => ret (failure e)).

Definition upload_documents (self : t) (chunks : list string)
  (embeddings : list (list float)) (source_file : string) : M Σ (gmap string scalar) :=
  try_except
    (if negb (Nat.eqb (length chunks) (length embeddings))
     then raise (ValueError "Number of chunks must match number of embeddings")
     else
       now <- observe (utcnow E) ;;
       let upload_time := isoformat now ++ "Z" in
       let documents := build_documents chunks embeddings source_file upload_time in
       _ <- call_out (DocumentsUpload (index_name self) documents)
              (documents_upload E (index_name self) documents) ;;
       ret {[ "success" := SBool true;
              "count" := SInt (Z.of_nat (length documents));
              "index_name" := SStr (index_name self);
              "message" :=
                SStr ("Uploaded " ++ Str.str_int (Z.of_nat (length documents))
                      ++ " documents successfully") ]})
    (fun e => ret (failure e)).

Definition search_similar (self : t) (query_embedding : list float) (top_k : Z)
  : M Σ (list (gmap string pyobj)) :=
  try_except
    (let request :=
       {| search_text := None;
          vector_queries :=
            [ {| vq_vector := query_embedding; vq_k_nearest_neighbors := top_k;
                 vq_fields := "content_vector" |} ];
          select := ["content"; "source_file"; "chunk_index"] |} in
     results <- call_out (DocumentsSearch (index_name self) request)
                  (documents_search E (index_name self) request) ;;
     lift (hits results))
    (fun e => raise (Exception ("Error searching documents: " ++ exn_str e))).

End Methods.
End AzureSearchClient.

(** ** main.py *)
Module Main.

(** What [process_pdf] can be called with: [None], an object with a [name]
    attribute (the path of the uploaded file), or a plain path string, which
    has no such attribute. *)
Inductive upload :=
| NoFile
| FileObject (name : string)
| FilePath (path : string).

(** [pdf_file.name] *)
Definition name_of {Σ} (pdf_file : upload) : M Σ string :=
  match pdf_file with
  | FileObject name => ret name
  | FilePath _ => raise (AttributeError "'str' object has no attribute 'name'")
  | NoFile => raise (AttributeError "'NoneType' object has no attribute 'name'")
  end.

(** The components of a POSIX path between its slashes. *)
Fixpoint components (s : string) (current : string) : list string :=
  match s with
  | EmptyString => [current]
  | String c s' =>
      if Ascii.eqb c "/" then current :: components s' ""
      else components s' (current ++ String c "")
  end.

(** [Path(p).name]: the last component that is neither empty nor [.]. *)
Definition path_name (p : string) : string :=
  let parts :=
    List.filter (fun c => negb (String.eqb c "" || String.eqb c ".")) (components p "") in
  List.last parts "".

Section Functions.
Context {Σ : Type} (E : Externals Σ).
(** The two module-level objects: [processor = DocumentProcessor()] and
    [azure_client = AzureSearchClient()]. *)
Definition processor : DocumentProcessor.t := DocumentProcessor.default.
Context (azure_client : AzureSearchClient.t).

Definition process_pdf (pdf_file : upload) : M Σ string :=
  try_except
    (match pdf_file with
     | NoFile => ret "❌ No file uploaded"
     | _ =>
       file_path <- name_of pdf_file ;;
       let file_name := path_name file_path in
       let status := "📄 Processing: " ++ file_name ++ Str.nl ++ Str.nl in
       let status := status ++ "⏳ Extracting text from PDF..." ++ Str.nl in
       text <- DocumentProcessor.extract_text_from_pdf E processor file_path ;;
       if Str.is_empty text
       then ret (status ++ "❌ Error: Could not extract text from PDF")
       else
         let status :=
           status ++ "✅ Extracted " ++ Str.str_int (Z.of_nat (Str.len text))
                  ++ " characters" ++ Str.nl ++ Str.nl in
         let status := status ++ "⏳ Chunking text..." ++ Str.nl in
         chunks <- DocumentProcessor.chunk_text E processor text ;;
         let status :=
           status ++ "✅ Created " ++ Str.str_int (Z.of_nat (length chunks))
                  ++ " chunks" ++ Str.nl ++ Str.nl in
         let status := status ++ "⏳ Generating embeddings..." ++ Str.nl in
         embeddings <- DocumentProcessor.generate_embeddings E processor chunks ;;
         let status :=
           status ++ "✅ Generated " ++ Str.str_int (Z.of_nat (length embeddings))
                  ++ " embeddings" ++ Str.nl ++ Str.nl in
         let status := status ++ "⏳ Uploading to Azure AI Search..." ++ Str.nl in
         result <- AzureSearchClient.upload_documents E azure_client chunks embeddings
                     file_name ;;
         success <- getitem result "success" ;;
         if Py.scalar_truthy success
         then
           count <- getitem result "count" ;;
           let status :=
             status ++ "✅ Successfully uploaded " ++ Py.format count
                    ++ " documents to Azure" ++ Str.nl in
           index_name <- getitem result "index_name" ;;
           ret (status ++ "📊 Index: " ++ Py.format index_name ++ Str.nl)
         else
           error <- getitem result "error" ;;
           ret (status ++ "❌ Upload failed: " ++ Py.format error ++ Str.nl)
     end)
    (fun e => ret ("❌ Error processing file: " ++ exn_str e)).

Definition create_index : M Σ string :=
  try_except
    (result <- AzureSearchClient.create_index E azure_client 384 ;;
     success <- getitem result "success" ;;
     if Py.scalar_truthy success
     then
       index_name <- getitem result "index_name" ;;
       ret ("✅ Index '" ++ Py.format index_name ++ "' created successfully")
     else
       error <- getitem result "error" ;;
       ret ("❌ Error creating index: " ++ Py.format error))
    (fun e => ret ("❌ Error: " ++ exn_str e)).

Definition delete_index : M Σ string :=
  try_except
    (result <- AzureSearchClient.delete_index E azure_client ;;
     success <- getitem result "success" ;;
     if Py.scalar_truthy success
     then
       message <- getitem result "message" ;;
       ret ("✅ " ++ Py.format message)
     else
       error <- getitem result "error" ;;
       ret ("❌ Error deleting index: " ++ Py.format error))
    (fun e => ret ("❌ Error: " ++ exn_str e)).

End Functions.
End Main.

(** ** backend/embeddings/app.py *)
Module EmbeddingApp.

(** A request, as far as the handlers read it: what [request.get_json()]
    gives, the decoded body or the error Flask raises for a body it cannot
    decode. *)
Record request := { get_json : outcome pyobj }.

(** [jsonify(body), status_code] *)
Record response := { body : gmap string pyobj; status_code : Z }.

Definition model_name : string := "all-MiniLM-L6-v2".

(** [key in data] *)
Definition contains (key : string) (data : pyobj) : outcome bool :=
  match data with
  | VDict d => Returned (bool_decide (is_Some (d !! key)))
  | VList l => Returned (existsb (Py.eq_str key) l)
  | VStr s => Returned (Str.contains key s)
  | _ => Raised (TypeError ("argument of type '" ++ Py.type_name data ++ "' is not iterable"))
  end.

(** [data[key]] for a string [key] *)
Definition subscript (data : pyobj) (key : string) : outcome pyobj :=
  match data with
  | VDict d =>
      match d !! key with
      | Some v => Returned v
      | None => Raised (KeyError key)
      end
  | VList _ => Raised (TypeError "list indices must be integers or slices, not str")
  | VStr _ => Raised (TypeError "string indices must be integers, not 'str'")
  | _ => Raised (TypeError ("'" ++ Py.type_name data ++ "' object is not subscriptable"))
  end.

(** [not data or key not in data]: the membership test runs only on a
    truthy [data]. *)
Definition missing (key : string) (data : pyobj) : outcome bool :=
  if negb (Py.truthy data) then Returned true
  else
    match contains key data with
    | Returned present => Returned (negb present)
    | Raised e => Raised e
    end.

Definition error_response (message : string) (code : Z) : response :=
  {| body := {[ "error" := VStr message ]}; status_code := code |}.

Definition floats (v : list float) : pyobj := VList (VFloat <$> v).

Section Handlers.
Context {Σ : Type} (E : Externals Σ).

Definition health : M Σ response :=
  ret {| body := {[ "status" := VStr "healthy"; "model" := VStr model_name ]};
         status_code := 200 |}.

(** [POST /embed].  The test [not text or not isinstance(text, str)] is the
    [match]: a value that is not a [str] fails it, a [str] fails it when it
    is empty. *)
Definition embed (req : request) : M Σ response :=
  try_except
    (data <- lift (get_json req) ;;
     absent <- lift (missing "text" data) ;;
     if absent then ret (error_response "Missing text field" 400)
     else
       text <- lift (subscript data "text") ;;
       match text with
       | VStr s =>
           if Str.is_empty s then ret (error_response "Text must be a non-empty string" 400)
           else
             embedding <- call_out (EncodeOne s true) (encode_one E s true) ;;
             ret {| body := {[ "embedding" := floats embedding;
                               "dimension" := VInt (Z.of_nat (length embedding));
                               "model" := VStr model_name ]};
                    status_code := 200 |}
       | _ => ret (error_response "Text must be a non-empty string" 400)
       end)
    (fun e => ret (error_response (exn_str e) 500)).

(** [POST /embed/batch].  The test [not isinstance(texts, list) or
    len(texts) == 0] is the [match]. *)
Definition embed_batch (req : request) : M Σ response :=
  try_except
    (data <- lift (get_json req) ;;
     absent <- lift (missing "texts" data) ;;
     if absent then ret (error_response "Missing texts field" 400)
     else
       texts <- lift (subscript data "texts") ;;
       match texts with
       | VList ((_ :: _) as l) =>
           embeddings <- call_out (EncodeMany l true) (encode_many E l true) ;;
           ret {| body := {[ "embeddings" := VList (floats <$> embeddings);
                             "count" := VInt (Z.of_nat (length embeddings));
                             "dimension" :=
                               VInt (match embeddings with
                                     | [] => 0
                                     | first :: _ => Z.of_nat (length first)
                                     end);
                             "model" := VStr model_name ]};
                  status_code := 200 |}
       | _ => ret (error_response "texts must be a non-empty array" 400)
       end)
    (fun e => ret (error_response (exn_str e) 500)).

End Handlers.
End EmbeddingApp.

(** ** A small world to run the code in

    The remote index is a map from document keys to documents, and an upload
    is an upsert.  Three PDF files exist: one whose pages carry no text, one
    that cannot be parsed, and one with text on its first and third page.
    The splitter returns the text as one chunk, the model answers every
    sentence with the same vector, and the service refuses to search an
    empty index. *)
Module Sample.

Definition index : Type := gmap string Document.t.

Definition upsert (docs : list Document.t) (idx : index) : index :=
  foldl (fun m d => <[Document.id d := d]> m) idx docs.

Definition pages (pdf_path : string) : outcome (list (outcome string)) :=
  if String.eqb pdf_path "/tmp/blank.pdf" then Returned [Returned ""; Returned ""]
  else if String.eqb pdf_path "/tmp/broken.pdf" then Raised (Exception "EOF marker not found")
  else Returned [Returned "Tax rules."; Returned ""; Returned "More."].

Definition vector : list float := [0.5%float; 0.5%float; 0.5%float; 0.5%float].

Definition clock : datetime :=
  {| year := 2024; month := 3; day := 9; hour := 14; minute := 5; second := 7;
     microsecond := 0 |}.

Definition externals : Externals index :=
  {| pdf_pages := fun p s => (pages p, s);
     split_text := fun _ _ text s => (Returned [text], s);
     encode_one := fun _ _ s => (Returned vector, s);
     encode_many := fun l _ s => (Returned ((fun _ => vector) <$> l), s);
     utcnow := fun _ => clock;
     index_delete := fun _ _ => (Returned tt, ∅);
     index_create_or_update := fun i s => (Returned i, s);
     documents_upload := fun _ docs s => (Returned tt, upsert docs s);
     documents_search := fun _ _ s =>
       if bool_decide (s = ∅) then (Raised (Exception "The index is empty"), s)
       else (Returned [], s) |}.

Definition client : AzureSearchClient.t :=
  {| AzureSearchClient.endpoint := "https://example.search.windows.net";
     AzureSearchClient.api_key := "key";
     AzureSearchClient.index_name := "cpa-documents" |}.

Definition start : world index := World ∅ [].

End Sample.

(** ** The status text [process_pdf] has accumulated when a stage starts *)
Module Status.

Definition extracting (file_name : string) : string :=
  ("📄 Processing: " ++ file_name ++ Str.nl ++ Str.nl)
  ++ "⏳ Extracting text from PDF..." ++ Str.nl.

Definition chunking (file_name text : string) : string :=
  (extracting file_name
   ++ "✅ Extracted " ++ Str.str_int (Z.of_nat (Str.len text)) ++ " characters"
   ++ Str.nl ++ Str.nl)
  ++ "⏳ Chunking text..." ++ Str.nl.

Definition embedding (file_name text : string) (chunks : list string) : string :=
  (chunking file_name text
   ++ "✅ Created " ++ Str.str_int (Z.of_nat (length chunks)) ++ " chunks"
   ++ Str.nl ++ Str.nl)
  ++ "⏳ Generating embeddings..." ++ Str.nl.

Definition uploading (file_name text : string) (chunks : list string)
  (embeddings : list (list float)) : string :=
  (embedding file_name text chunks
   ++ "✅ Generated " ++ Str.str_int (Z.of_nat (length embeddings)) ++ " embeddings"
   ++ Str.nl ++ Str.nl)
  ++ "⏳ Uploading to Azure AI Search..." ++ Str.nl.

End Status.

(** All the characters of [s] satisfy [p]. *)
Fixpoint all_chars (p : ascii -> bool) (s : string) : bool :=
  match s with
  | EmptyString => true
  | String c s' => p c && all_chars p s'
  end.

Definition is_digit (c : ascii) : bool :=
  (48 <=? nat_of_ascii c)%nat && (nat_of_ascii c <=? 57)%nat.

(** The result dictionary [r] reports what the guarded part of a method
    came to: success when it returned, the failure dictionary of the
    exception when it raised. *)
Definition reports {A} (guarded : outcome A) (r : gmap string scalar) : Prop :=
  match guarded with
  | Returned _ => r !! "success" = Some (SBool true)
  | Raised e => r = {[ "success" := SBool false; "error" := SStr (exn_str e) ]}
  end.

(** ** Predicates and worlds for the further properties *)

(** [s] starts with a white-space character; [s] ends with one (read from
    its end, the encodings are the reversed ones). *)
Definition starts_with_space (s : string) : bool :=
  match Str.drop_any_prefix Str.whitespace s with
  | Some _ => true
  | None => false
  end.

Definition ends_with_space (s : string) : bool :=
  match Str.drop_any_prefix (map Str.rev Str.whitespace) (Str.rev s) with
  | Some _ => true
  | None => false
  end.

Definition not_dot (c : ascii) : bool := negb (Ascii.eqb c ".").

Definition not_slash (c : ascii) : bool := negb (Ascii.eqb c "/").

Definition field_name (f : field) : string :=
  match f with
  | SimpleField name _ _ _ => name
  | SearchableField name _ _ => name
  | SearchField name _ _ _ _ => name
  end.

Definition is_key (f : field) : bool :=
  match f with
  | SimpleField _ _ key _ => key
  | _ => false
  end.

(** The dimension and the profile of a vector field. *)
Definition vector_config (f : field) : option (Z * string) :=
  match f with
  | SearchField _ _ _ dims profile => Some (dims, profile)
  | _ => None
  end.

(** The dictionary [upload_documents] returns after an upload of [n]
    documents to the index [name]. *)
Definition uploaded (name : string) (n : nat) : gmap string scalar :=
  {[ "success" := SBool true;
     "count" := SInt (Z.of_nat n);
     "index_name" := SStr name;
     "message" := SStr ("Uploaded " ++ Str.str_int (Z.of_nat n) ++ " documents successfully") ]}.

(** A search result that has the three selected fields, and the entry
    [search_similar] makes of it: the fields under their new names, the
    score of the service or [0], and nothing else. *)
Definition complete (result : gmap string pyobj) : Prop :=
  is_Some (result !! "content") /\ is_Some (result !! "source_file")
  /\ is_Some (result !! "chunk_index").

Definition is_hit_of (result h : gmap string pyobj) : Prop :=
  h !! "content" = result !! "content"
  /\ h !! "source" = result !! "source_file"
  /\ h !! "chunk" = result !! "chunk_index"
  /\ h !! "score" = Some (default (VInt 0) (result !! "@search.score"))
  /\ dom h = ({[ "content"; "source"; "chunk"; "score" ]} : gset string).

(** A response of the embedding service: 200, or 400 or 500 with a body
    that is an error message and nothing else. *)
Definition well_formed (r : EmbeddingApp.response) : Prop :=
  EmbeddingApp.status_code r = 200%Z
  \/ ((EmbeddingApp.status_code r = 400%Z \/ EmbeddingApp.status_code r = 500%Z)
      /\ exists message, EmbeddingApp.body r = {[ "error" := VStr message ]}).

(** Variations of the sample world: what the splitter, the model and the
    search answer, and whether the search service is reachable. *)
Module Scenario.

Definition externals (pages : string -> outcome (list (outcome string)))
  (split : string -> outcome (list string))
  (many : list pyobj -> outcome (list (list float))) (one : string -> outcome (list float))
  (reachable : bool) (found : outcome (list (gmap string pyobj))) : Externals Sample.index :=
  let remote {A} (answer : outcome A * Sample.index) (s : Sample.index) :=
    if reachable then answer else (Raised (Exception "Service unavailable"), s) in
  {| pdf_pages := fun p s => (pages p, s);
     split_text := fun _ _ text s => (split text, s);
     encode_one := fun text _ s => (one text, s);
     encode_many := fun l _ s => (many l, s);
     utcnow := fun _ => Sample.clock;
     index_delete := fun _ s => remote (Returned tt, ∅) s;
     index_create_or_update := fun i s => remote (Returned i, s) s;
     documents_upload := fun _ docs s => remote (Returned tt, Sample.upsert docs s) s;
     documents_search := fun _ _ s => remote (found, s) s |}.

Definition one_chunk (text : string) : outcome (list string) := Returned [text].
Definition same_vector (l : list pyobj) : outcome (list (list float)) :=
  Returned ((fun _ => Sample.vector) <$> l).
Definition a_vector (text : string) : outcome (list float) := Returned Sample.vector.

(** Everything answers. *)
Definition working (found : list (gmap string pyobj)) : Externals Sample.index :=
  externals Sample.pages one_chunk same_vector a_vector true (Returned found).

(** The splitter raises. *)
Definition splitter_down : Externals Sample.index :=
  externals Sample.pages (fun _ => Raised (ValueError "bad separator")) same_vector a_vector
    true
    (Returned []).

(** The model raises. *)
Definition model_down : Externals Sample.index :=
  externals Sample.pages one_chunk (fun _ => Raised (Exception "CUDA out of memory"))
    (fun _ => Raised (Exception "CUDA out of memory")) true (Returned []).

(** The model answers with no vector at all. *)
Definition model_silent : Externals Sample.index :=
  externals Sample.pages one_chunk (fun _ => Returned []) a_vector true (Returned []).

(** The search service cannot be reached. *)
Definition service_down : Externals Sample.index :=
  externals Sample.pages one_chunk same_vector a_vector false (Returned []).

(** The second page of every PDF cannot be read. *)
Definition damaged_page : Externals Sample.index :=
  externals
    (fun _ => Returned [Returned "Tax rules."; Raised (Exception "Invalid page stream");
                        Returned "More."])
    one_chunk same_vector a_vector true (Returned []).

(** Two search results, the second without a score, and one without its
    content. *)
Definition result_scored : gmap string pyobj :=
  {[ "content" := VStr "Tax rules."; "source_file" := VStr "tax.2024.pdf";
     "chunk_index" := VInt 0; "@search.score" := VFloat 0.5%float ]}.

Definition result_unscored : gmap string pyobj :=
  {[ "content" := VStr "More."; "source_file" := VStr "tax.2024.pdf";
     "chunk_index" := VInt 1 ]}.

Definition result_without_content : gmap string pyobj :=
  {[ "source_file" := VStr "tax.2024.pdf"; "chunk_index" := VInt 2 ]}.

(** An SDK whose clients refuse an endpoint that is not [https]. *)
Definition tls_only (endpoint : string) : outcome unit :=
  match Str.drop_prefix "http://" endpoint with
  | Some _ =>
      Raised (ValueError ("Bearer token authentication is not permitted "
                          ++ "for non-TLS protected (non-https) URLs."))
  | None => Returned tt
  end.

Definition sdk : AzureSearchClient.sdk :=
  {| AzureSearchClient.AzureKeyCredential := fun _ => Returned tt;
     AzureSearchClient.SearchIndexClient := fun endpoint _ => tls_only endpoint;
     AzureSearchClient.SearchClient := fun endpoint _ _ => tls_only endpoint |}.

(** A result that has its content and neither of the other two fields. *)
Definition result_content_only : gmap string pyobj := {[ "content" := VStr "More." ]}.

End Scenario.

(** * Properties *)

(** ** The definitions on small inputs *)

Example len_ascii : Str.len "abc" = 3.
Proof. reflexivity. Qed.

Example len_counts_code_points : Str.len "❌ No file uploaded" = 18.
Proof. reflexivity. Qed.

Example str_int_examples :
  Str.str_int 0 = "0" /\ Str.str_int 12 = "12" /\ Str.str_int 1000 = "1000"
  /\ Str.str_int (-7) = "-7".
Proof. repeat split; reflexivity. Qed.

Example replace_example : Str.replace "." "_" "tax.2024.pdf" = "tax_2024_pdf".
Proof. reflexivity. Qed.

Example strip_example :
  Str.strip ("  " ++ Str.nl ++ "a b " ++ Str.bytes [194; 160] ++ Str.nl) = "a b"
  /\ Str.strip (Str.nl ++ " ") = "" /\ Str.strip "" = "".
Proof. repeat split; reflexivity. Qed.

Example contains_example :
  Str.contains "text" "context" = true /\ Str.contains "text" "tex" = false.
Proof. split; reflexivity. Qed.

Example zfill_example : Str.zfill 2 7 = "07" /\ Str.zfill 4 2026 = "2026".
Proof. split; reflexivity. Qed.

Example path_name_examples :
  Main.path_name "/tmp/gradio/tax.2024.pdf" = "tax.2024.pdf"
  /\ Main.path_name "a/b/./c.pdf/" = "c.pdf" /\ Main.path_name "/" = ""
  /\ Main.path_name "report.pdf" = "report.pdf".
Proof. repeat split; reflexivity. Qed.

Example isoformat_examples :
  isoformat Sample.clock = "2024-03-09T14:05:07"
  /\ isoformat {| year := 987; month := 12; day := 31; hour := 0; minute := 0; second := 9;
                  microsecond := 1500 |} = "0987-12-31T00:00:09.001500".
Proof. split; reflexivity. Qed.

(** Pages without text leave no marker; the numbering counts them all the same. *)
Example read_pages_example :
  DocumentProcessor.read_pages 0 [Returned "A"; Returned ""; Returned "B"] ""
  = Returned (Str.nl ++ Str.nl ++ "--- Page 1 ---" ++ Str.nl ++ Str.nl ++ "A"
              ++ Str.nl ++ Str.nl ++ "--- Page 3 ---" ++ Str.nl ++ Str.nl ++ "B").
Proof. reflexivity. Qed.

Example client_init_examples :
  AzureSearchClient.init Scenario.sdk
    {[ "AZURE_SEARCH_ENDPOINT" := "https://s"; "AZURE_SEARCH_API_KEY" := "k" ]}
  = Returned {| AzureSearchClient.endpoint := "https://s"; AzureSearchClient.api_key := "k";
                AzureSearchClient.index_name := "cpa-documents" |}
  /\ AzureSearchClient.init Scenario.sdk {[ "AZURE_SEARCH_ENDPOINT" := "https://s" ]}
     = Raised (ValueError "Missing Azure Search credentials in .env file")
  /\ AzureSearchClient.init Scenario.sdk
       {[ "AZURE_SEARCH_ENDPOINT" := "https://s"; "AZURE_SEARCH_API_KEY" := "k";
          "AZURE_SEARCH_INDEX_NAME" := "" ]}
     = Returned {| AzureSearchClient.endpoint := "https://s"; AzureSearchClient.api_key := "k";
                   AzureSearchClient.index_name := "" |}.
Proof. repeat split; vm_compute; reflexivity. Qed.

(** ** The monad *)

Lemma call_out_issued {Σ A} (c : call) (f : Σ -> outcome A * Σ) (w : world Σ) :
  issued (call_out c f w).2 = (issued w ++ [c])%list.
Proof. unfold call_out. destruct (f (outside w)); reflexivity. Qed.

Lemma bind_returned {Σ A B} (m : M Σ A) (k : A -> M Σ B) w a w' :
  m w = (Returned a, w') -> bind m k w = k a w'.
Proof. intros H. unfold bind. rewrite H. reflexivity. Qed.

Lemma bind_raised {Σ A B} (m : M Σ A) (k : A -> M Σ B) w e w' :
  m w = (Raised e, w') -> bind m k w = (Raised e, w').
Proof. intros H. unfold bind. rewrite H. reflexivity. Qed.

(** Running a computation: its monadic operations unfolded. *)
Ltac run_monad :=
  unfold try_except, bind, call_out, observe, lift, ret, raise; cbv zeta.

(** ** Strings *)

Lemma append_cancel_l (p a b : string) : p ++ a = p ++ b -> a = b.
Proof. induction p as [| c p IH]; simpl; [tauto | intros [= H]; auto]. Qed.

(** [str] is injective on integers. *)
Lemma str_int_inj (z1 z2 : Z) : Str.str_int z1 = Str.str_int z2 -> z1 = z2.
Proof.
  unfold Str.str_int. intros H.
  assert (Hnn : forall z, Z.to_int z <> Decimal.Pos Decimal.Nil
                          /\ Z.to_int z <> Decimal.Neg Decimal.Nil).
  { intros [| p | p]; simpl; split; try discriminate;
      intros [= Hp]; exact (Unsigned.to_uint_nonnil p Hp). }
  apply DecimalZ.to_int_inj.
  destruct (Hnn z1) as [Ha Hb], (Hnn z2) as [Hc Hd].
  pose proof (NilZero.isi _ Ha Hb) as H1. pose proof (NilZero.isi _ Hc Hd) as H2.
  rewrite H in H1. congruence.
Qed.

Lemma string_of_uint_digits (d : Decimal.uint) :
  all_chars is_digit (NilEmpty.string_of_uint d) = true.
Proof. induction d; simpl; auto. Qed.

(** The decimal form of a natural number consists of digits. *)
Lemma str_nat_digits (n : nat) : all_chars is_digit (Str.str_int (Z.of_nat n)) = true.
Proof.
  unfold Str.str_int.
  destruct (Z.of_nat n) as [| p | p] eqn:Hn; [reflexivity | | lia].
  simpl. pose proof (string_of_uint_digits (Pos.to_uint p)) as Hd.
  destruct (Pos.to_uint p); [reflexivity | exact Hd ..].
Qed.

(** A string of digits after the last underscore determines where that
    underscore is. *)
Lemma split_last_underscore (a1 a2 d1 d2 : string) :
  all_chars is_digit d1 = true -> all_chars is_digit d2 = true ->
  a1 ++ "_" ++ d1 = a2 ++ "_" ++ d2 -> a1 = a2 /\ d1 = d2.
Proof.
  assert (Hno : forall a d d', all_chars is_digit d = true -> d <> a ++ "_" ++ d').
  { intros a d d' Hd ->. induction a as [| c a IH].
    - change (all_chars is_digit (String "_" d') = true) in Hd. discriminate.
    - change (all_chars is_digit (String c (a ++ "_" ++ d')) = true) in Hd.
      simpl in Hd. apply andb_true_iff in Hd as [_ Hd]. auto. }
  revert a2. induction a1 as [| c a1 IH]; intros [| c2 a2] H1 H2 H.
  - change (String "_" d1 = String "_" d2) in H. injection H as ->. auto.
  - change (String "_" d1 = String c2 (a2 ++ "_" ++ d2)) in H.
    injection H as <- ->. exfalso. exact (Hno a2 _ d2 H1 eq_refl).
  - change (String c (a1 ++ "_" ++ d1) = String "_" d2) in H.
    injection H as -> <-. exfalso. exact (Hno a1 _ d1 H2 eq_refl).
  - change (String c (a1 ++ "_" ++ d1) = String c2 (a2 ++ "_" ++ d2)) in H.
    injection H as -> H. destruct (IH a2 H1 H2 H) as [-> ->]. auto.
Qed.

(** ** document_processor.py *)
Section DocumentProcessorFacts.
Context {Σ : Type} (E : Externals Σ).

(** Extraction issues one call, whatever its outcome. *)
Lemma extract_text_issued self pdf_path (w : world Σ) :
  issued (DocumentProcessor.extract_text_from_pdf E self pdf_path w).2
  = (issued w ++ [OpenPdf pdf_path])%list.
Proof.
  unfold DocumentProcessor.extract_text_from_pdf. run_monad.
  destruct (pdf_pages E pdf_path (outside w)) as [[pages | e] s]; simpl; [| reflexivity].
  destruct (DocumentProcessor.read_pages 0 pages ""); reflexivity.
Qed.

(** Chunking is the splitter's answer, unchanged, or its exception behind
    the context of the stage. *)
Lemma chunk_text_forwards self text (w : world Σ) :
  let size := DocumentProcessor.chunk_size self in
  let overlap := DocumentProcessor.chunk_overlap self in
  DocumentProcessor.chunk_text E self text w
  = match split_text E size overlap text (outside w) with
    | (Returned chunks, s) =>
        (Returned chunks, World s (issued w ++ [SplitText size overlap text]))
    | (Raised e, s) =>
        (Raised (Exception ("Error chunking text: " ++ exn_str e)),
         World s (issued w ++ [SplitText size overlap text]))
    end.
Proof.
  unfold DocumentProcessor.chunk_text. run_monad.
  destruct (split_text E _ _ text (outside w)) as [[chunks | e] s]; reflexivity.
Qed.

(** The pipeline asks the model for embeddings without normalisation. *)
Lemma generate_embeddings_issued self chunks (w : world Σ) :
  issued (DocumentProcessor.generate_embeddings E self chunks w).2
  = (issued w ++ [EncodeMany (VStr <$> chunks) false])%list.
Proof.
  unfold DocumentProcessor.generate_embeddings. run_monad.
  destruct (encode_many E _ false (outside w)) as [[embeddings | e] s]; reflexivity.
Qed.

(** What extraction raises is an [Exception] whose message starts with the
    stage's context. *)
Lemma extract_text_raises self pdf_path (w w' : world Σ) e :
  DocumentProcessor.extract_text_from_pdf E self pdf_path w = (Raised e, w') ->
  exists cause, e = Exception ("Error extracting text from PDF: " ++ exn_str cause).
Proof.
  unfold DocumentProcessor.extract_text_from_pdf. run_monad.
  destruct (pdf_pages E pdf_path (outside w)) as [[pages | e0] s]; simpl.
  - destruct (DocumentProcessor.read_pages 0 pages "") as [text | e1]; simpl.
    + discriminate.
    + intros [= <- _]. eauto.
  - intros [= <- _]. eauto.
Qed.

End DocumentProcessorFacts.

(** ** azure_search.py *)

(** Within one source file, distinct chunks get distinct keys. *)
Lemma document_id_inj_idx (source_file : string) (i j : nat) :
  AzureSearchClient.document_id source_file i = AzureSearchClient.document_id source_file j ->
  i = j.
Proof.
  unfold AzureSearchClient.document_id. intros H.
  apply append_cancel_l in H. apply (append_cancel_l "_") in H.
  apply str_int_inj in H. lia.
Qed.

(** C6, as the code has it.  Two keys are equal exactly when the chunk
    indices are equal and the source file names are equal once every ['.']
    is replaced by ['_']: the key determines the chunk index and the
    normalised file name, not the file name itself. *)
Theorem document_id_eq_iff (f1 f2 : string) (i1 i2 : nat) :
  AzureSearchClient.document_id f1 i1 = AzureSearchClient.document_id f2 i2
  <-> Str.replace "." "_" f1 = Str.replace "." "_" f2 /\ i1 = i2.
Proof.
  unfold AzureSearchClient.document_id. split.
  - intros H. apply split_last_underscore in H; auto using str_nat_digits.
    destruct H as [Hf Hi]. split; [exact Hf |]. apply str_int_inj in Hi. lia.
  - intros [-> ->]. reflexivity.
Qed.

(** C6 as stated fails: two different file names with the same keys. *)
Lemma document_id_collision :
  AzureSearchClient.document_id "a.b" 0 = AzureSearchClient.document_id "a_b" 0
  /\ "a.b" <> "a_b".
Proof. split; [reflexivity | discriminate]. Qed.

Section AzureSearchFacts.
Context {Σ : Type} (E : Externals Σ) (self : AzureSearchClient.t).

(** What [upload_documents] does, case by case. *)
Lemma upload_documents_run chunks embeddings source_file (w : world Σ) :
  AzureSearchClient.upload_documents E self chunks embeddings source_file w
  = if Nat.eqb (length chunks) (length embeddings)
    then
      let documents :=
        AzureSearchClient.build_documents chunks embeddings source_file
          (isoformat (utcnow E (outside w)) ++ "Z") in
      let w' s :=
        World s (issued w ++ [DocumentsUpload (AzureSearchClient.index_name self) documents]) in
      match documents_upload E (AzureSearchClient.index_name self) documents (outside w) with
      | (Returned _, s) =>
          (Returned {[ "success" := SBool true;
                       "count" := SInt (Z.of_nat (length documents));
                       "index_name" := SStr (AzureSearchClient.index_name self);
                       "message" :=
                         SStr ("Uploaded " ++ Str.str_int (Z.of_nat (length documents))
                               ++ " documents successfully") ]}, w' s)
      | (Raised e, s) => (Returned (AzureSearchClient.failure e), w' s)
      end
    else
      (Returned (AzureSearchClient.failure
                   (ValueError "Number of chunks must match number of embeddings")), w).
Proof.
  unfold AzureSearchClient.upload_documents. run_monad.
  destruct (Nat.eqb (length chunks) (length embeddings)); simpl; [| reflexivity].
  destruct (documents_upload E _ _ (outside w)) as [[[] | e] s]; reflexivity.
Qed.

(** C5.  With [len(chunks) != len(embeddings)], [upload_documents] returns
    the failure dictionary carrying the message of its [ValueError], and the
    world is as before: the state of the remote index is unchanged and no
    call has been issued. *)
Theorem upload_documents_length_mismatch chunks embeddings source_file (w : world Σ) :
  length chunks <> length embeddings ->
  AzureSearchClient.upload_documents E self chunks embeddings source_file w
  = (Returned {[ "success" := SBool false;
                 "error" := SStr "Number of chunks must match number of embeddings" ]}, w).
Proof.
  intros Hne. rewrite upload_documents_run.
  destruct (Nat.eqb_spec (length chunks) (length embeddings)); [contradiction | reflexivity].
Qed.

(** C4.  For chunk and embedding lists of equal length, [upload_documents]
    sends the search service exactly one document per chunk, in order: the
    document at position [idx] has [chunk_index = idx] (so the indices count
    up from 0), the key [source_file.replace('.', '_') + "_" + str(idx)], the
    chunk as content and its embedding as vector, and the one upload time of
    the call, [utcnow().isoformat() + "Z"]; the keys of the batch are
    pairwise distinct. *)
Theorem upload_documents_builds chunks embeddings source_file (w : world Σ) :
  length chunks = length embeddings ->
  let upload_time := isoformat (utcnow E (outside w)) ++ "Z" in
  exists documents,
    issued (AzureSearchClient.upload_documents E self chunks embeddings source_file w).2
    = (issued w ++ [DocumentsUpload (AzureSearchClient.index_name self) documents])%list
    /\ length documents = length chunks
    /\ (forall idx, idx < length chunks ->
        exists chunk embedding,
          chunks !! idx = Some chunk /\ embeddings !! idx = Some embedding
          /\ documents !! idx
             = Some {| Document.id :=
                         Str.replace "." "_" source_file ++ "_" ++ Str.str_int (Z.of_nat idx);
                       Document.content := chunk;
                       Document.source_file := source_file;
                       Document.chunk_index := Z.of_nat idx;
                       Document.upload_date := upload_time;
                       Document.content_vector := embedding |})
    /\ NoDup (Document.id <$> documents).
Proof.
  intros Hlen upload_time.
  exists (AzureSearchClient.build_documents chunks embeddings source_file upload_time).
  split; [| split; [| split]].
  - rewrite upload_documents_run, Hlen, Nat.eqb_refl. cbv zeta. fold upload_time.
    destruct (documents_upload E _ _ (outside w)) as [[[] | e] s]; reflexivity.
  - unfold AzureSearchClient.build_documents. rewrite length_imap, length_zip. lia.
  - intros idx Hidx.
    destruct (lookup_lt_is_Some_2 chunks idx Hidx) as [chunk Hc].
    assert (Hidx' : idx < length embeddings) by lia.
    destruct (lookup_lt_is_Some_2 embeddings idx Hidx') as [embedding He].
    exists chunk, embedding. split; [exact Hc | split; [exact He |]].
    unfold AzureSearchClient.build_documents.
    rewrite list_lookup_imap, lookup_zip_with, Hc, He. reflexivity.
  - apply NoDup_alt. intros i j key Hi Hj.
    unfold AzureSearchClient.build_documents in Hi, Hj.
    rewrite list_lookup_fmap, list_lookup_imap in Hi, Hj.
    destruct (zip chunks embeddings !! i) as [pi |]; [| discriminate].
    destruct (zip chunks embeddings !! j) as [pj |]; [| discriminate].
    simpl in Hi, Hj. injection Hi as Hi. injection Hj as Hj.
    apply (document_id_inj_idx source_file). congruence.
Qed.

(** C7.  [delete_index], [create_index] and [upload_documents] return on
    every world: the dictionary they return reports success when the
    guarded part went through, and is [{success: False, error: str(e)}]
    when it raised [e].  [search_similar] does not: when the search service
    raises [e], it raises an [Exception] whose message is that of [e] behind
    the context ["Error searching documents: "]. *)
Theorem result_values_and_search_raises (embedding_dim : Z) chunks embeddings source_file
  query_embedding (top_k : Z) (w : world Σ) :
  let name := AzureSearchClient.index_name self in
  let index :=
    {| si_name := name; si_fields := AzureSearchClient.fields embedding_dim;
       si_vector_search := AzureSearchClient.vector_search |} in
  let documents :=
    AzureSearchClient.build_documents chunks embeddings source_file
      (isoformat (utcnow E (outside w)) ++ "Z") in
  let request :=
    {| search_text := None;
       vector_queries :=
         [ {| vq_vector := query_embedding; vq_k_nearest_neighbors := top_k;
              vq_fields := "content_vector" |} ];
       select := ["content"; "source_file"; "chunk_index"] |} in
  (exists r w', AzureSearchClient.delete_index E self w = (Returned r, w')
                /\ reports (index_delete E name (outside w)).1 r)
  /\ (exists r w', AzureSearchClient.create_index E self embedding_dim w = (Returned r, w')
                   /\ reports (index_create_or_update E index (outside w)).1 r)
  /\ (exists r w',
        AzureSearchClient.upload_documents E self chunks embeddings source_file w
        = (Returned r, w')
        /\ reports (if Nat.eqb (length chunks) (length embeddings)
                    then (documents_upload E name documents (outside w)).1
                    else Raised (ValueError "Number of chunks must match number of embeddings"))
             r)
  /\ (forall e s, documents_search E name request (outside w) = (Raised e, s) ->
        AzureSearchClient.search_similar E self query_embedding top_k w
        = (Raised (Exception ("Error searching documents: " ++ exn_str e)),
           World s (issued w ++ [DocumentsSearch name request]))).
Proof.
  intros name index documents request. repeat split.
  - unfold AzureSearchClient.delete_index. run_monad.
    fold name. destruct (index_delete E name (outside w)) as [[[] | e] s]; simpl.
    + eexists _, _. split; [reflexivity |]. apply lookup_insert_eq.
    + eexists _, _. split; reflexivity.
  - unfold AzureSearchClient.create_index. run_monad.
    fold name. fold index.
    destruct (index_create_or_update E index (outside w)) as [[result | e] s]; simpl.
    + eexists _, _. split; [reflexivity |]. apply lookup_insert_eq.
    + eexists _, _. split; reflexivity.
  - rewrite upload_documents_run. fold name. cbv zeta. fold documents.
    destruct (Nat.eqb (length chunks) (length embeddings)).
    + destruct (documents_upload E name documents (outside w)) as [[[] | e] s]; simpl.
      * eexists _, _. split; [reflexivity |]. apply lookup_insert_eq.
      * eexists _, _. split; reflexivity.
    + eexists _, _. split; reflexivity.
  - intros e s H.
    unfold AzureSearchClient.search_similar. run_monad.
    fold name. fold request. rewrite H. reflexivity.
Qed.

End AzureSearchFacts.

(** ** main.py: process_pdf *)
Section ProcessPdf.
Context {Σ : Type} (E : Externals Σ) (azure_client : AzureSearchClient.t).

(** C10.  Called with [None], [process_pdf] returns the status
    ["❌ No file uploaded"] and leaves the world as it was: no call is issued,
    so nothing is extracted, chunked, embedded or uploaded. *)
Theorem process_pdf_none (w : world Σ) :
  Main.process_pdf E azure_client Main.NoFile w = (Returned "❌ No file uploaded", w).
Proof. reflexivity. Qed.

(** C9.  When extraction yields the empty text, [process_pdf] ends with the
    error status of the extraction stage, and the only call of the run is
    the one that read the PDF: the splitter, the model and the search
    service are not called. *)
Theorem process_pdf_empty_text (pdf_path : string) (w w1 : world Σ) :
  DocumentProcessor.extract_text_from_pdf E Main.processor pdf_path w = (Returned "", w1) ->
  Main.process_pdf E azure_client (Main.FileObject pdf_path) w
  = (Returned (Status.extracting (Main.path_name pdf_path)
               ++ "❌ Error: Could not extract text from PDF"), w1)
  /\ issued w1 = (issued w ++ [OpenPdf pdf_path])%list.
Proof.
  intros H. split.
  - unfold Main.process_pdf, try_except.
    rewrite (bind_returned _ _ w pdf_path w) by reflexivity.
    rewrite (bind_returned _ _ _ _ _ H). reflexivity.
  - pose proof (extract_text_issued E Main.processor pdf_path w) as Hi.
    rewrite H in Hi. exact Hi.
Qed.

(** A handler that returns makes the whole [try] return. *)
Lemma try_except_returns {A} (body : M Σ A) (h : exn -> A) (w : world Σ) :
  exists a w', try_except body (fun e => ret (h e)) w = (Returned a, w').
Proof. unfold try_except, ret. destruct (body w) as [[a | e] w']; eauto. Qed.

Lemma getitem_failure_success e (w : world Σ) :
  getitem (AzureSearchClient.failure e) "success" w = (Returned (SBool false), w).
Proof. unfold getitem, AzureSearchClient.failure. rewrite lookup_insert_eq. reflexivity. Qed.

Lemma getitem_failure_error e (w : world Σ) :
  getitem (AzureSearchClient.failure e) "error" w = (Returned (SStr (exn_str e)), w).
Proof.
  unfold getitem, AzureSearchClient.failure.
  rewrite lookup_insert_ne by discriminate. rewrite lookup_singleton_eq. reflexivity.
Qed.

(** C1, as the code has it.  [process_pdf] always returns a status string,
    whatever it is called with.  A stage that fails ends the run in the
    world that stage left, so no later stage is called.  The status returned
    is the accumulated text followed by the failure when extraction yields
    no text and when the upload reports a failure; when a stage raises
    (extraction, chunking, embedding), it is the line
    ["❌ Error processing file: "] with the message of the exception, and the
    text accumulated before is not part of it. *)
Theorem process_pdf_failure_halts (pdf_path : string) (w : world Σ) :
  let file_name := Main.path_name pdf_path in
  let run := Main.process_pdf E azure_client (Main.FileObject pdf_path) w in
  (forall pdf_file, exists status w',
      Main.process_pdf E azure_client pdf_file w = (Returned status, w'))
  /\ (forall e w1,
        DocumentProcessor.extract_text_from_pdf E Main.processor pdf_path w = (Raised e, w1) ->
        run = (Returned ("❌ Error processing file: " ++ exn_str e), w1))
  /\ (forall w1,
        DocumentProcessor.extract_text_from_pdf E Main.processor pdf_path w = (Returned "", w1) ->
        run = (Returned (Status.extracting file_name
                         ++ "❌ Error: Could not extract text from PDF"), w1))
  /\ (forall text w1,
        DocumentProcessor.extract_text_from_pdf E Main.processor pdf_path w
        = (Returned text, w1) ->
        text <> "" ->
        (forall e w2,
            DocumentProcessor.chunk_text E Main.processor text w1 = (Raised e, w2) ->
            run = (Returned ("❌ Error processing file: " ++ exn_str e), w2))
        /\ (forall chunks w2,
              DocumentProcessor.chunk_text E Main.processor text w1 = (Returned chunks, w2) ->
              (forall e w3,
                  DocumentProcessor.generate_embeddings E Main.processor chunks w2
                  = (Raised e, w3) ->
                  run = (Returned ("❌ Error processing file: " ++ exn_str e), w3))
              /\ (forall embeddings w3 e w4,
                    DocumentProcessor.generate_embeddings E Main.processor chunks w2
                    = (Returned embeddings, w3) ->
                    AzureSearchClient.upload_documents E azure_client chunks embeddings
                      file_name w3
                    = (Returned (AzureSearchClient.failure e), w4) ->
                    run = (Returned (Status.uploading file_name text chunks embeddings
                                     ++ "❌ Upload failed: " ++ exn_str e ++ Str.nl), w4)))).
Proof.
  intros file_name run. split; [intros pdf_file; apply try_except_returns |].
  subst run. unfold Main.process_pdf, try_except.
  rewrite (bind_returned _ _ w pdf_path w) by reflexivity. cbv zeta.
  split; [| split].
  - intros e w1 H. rewrite (bind_raised _ _ _ _ _ H). reflexivity.
  - intros w1 H. rewrite (bind_returned _ _ _ _ _ H). reflexivity.
  - intros text w1 H Htext. rewrite (bind_returned _ _ _ _ _ H).
    destruct text as [| c text']; [contradiction |].
    set (text := String c text') in *.
    change (Str.is_empty text) with false. cbv iota.
    split.
    + intros e w2 Hc. rewrite (bind_raised _ _ _ _ _ Hc). reflexivity.
    + intros chunks w2 Hc. rewrite (bind_returned _ _ _ _ _ Hc). split.
      * intros e w3 He. rewrite (bind_raised _ _ _ _ _ He). reflexivity.
      * intros embeddings w3 e w4 He Hu.
        rewrite (bind_returned _ _ _ _ _ He). fold file_name.
        rewrite (bind_returned _ _ _ _ _ Hu).
        rewrite (bind_returned _ _ _ _ _ (getitem_failure_success e w4)).
        change (Py.scalar_truthy (SBool false)) with false. cbv iota.
        rewrite (bind_returned _ _ _ _ _ (getitem_failure_error e w4)).
        reflexivity.
Qed.

End ProcessPdf.

(** ** backend/embeddings/app.py *)

Lemma missing_absent (key : string) (d : gmap string pyobj) :
  d !! key = None -> EmbeddingApp.missing key (VDict d) = Returned true.
Proof.
  intros H. unfold EmbeddingApp.missing, EmbeddingApp.contains, Py.truthy.
  destruct (bool_decide (d = ∅)); simpl; [reflexivity |].
  rewrite H. rewrite bool_decide_false; [reflexivity |]. intros [v Hv]. discriminate.
Qed.

Lemma missing_present (key : string) (d : gmap string pyobj) (v : pyobj) :
  d !! key = Some v -> EmbeddingApp.missing key (VDict d) = Returned false.
Proof.
  intros H. unfold EmbeddingApp.missing, EmbeddingApp.contains, Py.truthy.
  rewrite bool_decide_false.
  - simpl. rewrite H. rewrite bool_decide_true; [reflexivity | eauto].
  - intros ->. rewrite lookup_empty in H. discriminate.
Qed.

Section EmbeddingAppFacts.
Context {Σ : Type} (E : Externals Σ).

(** C8, as the code has it.  [POST /embed] answers 400 with
    [{"error": "Missing text field"}] when the JSON body is falsy ([null],
    [false], [0], [""], [[]], [{}]) or the test ['text' in data] is false
    (an object without a [text] member, a list without the string, a string
    without the substring); every other body that is not an object is
    answered 500 with an error message.  It answers 400 when [data['text']]
    is the empty string or is not a string; [POST /embed/batch] answers 400
    with [{"error": "texts must be a non-empty array"}] when [data['texts']]
    is the empty list or is not a list.  In each case the world is as
    before: the model has not been called. *)
Theorem embed_rejects_bad_input (w : world Σ) :
  (forall data,
      Py.truthy data = false \/ EmbeddingApp.contains "text" data = Returned false ->
      EmbeddingApp.embed E {| EmbeddingApp.get_json := Returned data |} w
      = (Returned {| EmbeddingApp.body := {[ "error" := VStr "Missing text field" ]};
                     EmbeddingApp.status_code := 400 |}, w))
  /\ (forall data,
        Py.truthy data = true -> (forall d, data <> VDict d) ->
        EmbeddingApp.contains "text" data <> Returned false ->
        exists message,
          EmbeddingApp.embed E {| EmbeddingApp.get_json := Returned data |} w
          = (Returned {| EmbeddingApp.body := {[ "error" := VStr message ]};
                         EmbeddingApp.status_code := 500 |}, w))
  /\ (forall data text,
        EmbeddingApp.subscript data "text" = Returned text ->
        text = VStr "" \/ Py.is_str text = false ->
        EmbeddingApp.embed E {| EmbeddingApp.get_json := Returned data |} w
        = (Returned {| EmbeddingApp.body :=
                         {[ "error" := VStr "Text must be a non-empty string" ]};
                       EmbeddingApp.status_code := 400 |}, w))
  /\ (forall data texts,
        EmbeddingApp.subscript data "texts" = Returned texts ->
        texts = VList [] \/ Py.is_list texts = false ->
        EmbeddingApp.embed_batch E {| EmbeddingApp.get_json := Returned data |} w
        = (Returned {| EmbeddingApp.body :=
                         {[ "error" := VStr "texts must be a non-empty array" ]};
                       EmbeddingApp.status_code := 400 |}, w)).
Proof.
  assert (Hsub : forall data key v,
             EmbeddingApp.subscript data key = Returned v ->
             exists d, data = VDict d /\ d !! key = Some v).
  { intros data key v. destruct data as [| | | | | | d]; simpl; try discriminate.
    destruct (d !! key) as [x |] eqn:Hx; [| discriminate]. intros [= <-]. eauto. }
  split; [| split; [| split]].
  - intros data H. unfold EmbeddingApp.embed. run_monad. simpl.
    unfold EmbeddingApp.missing. destruct (Py.truthy data) eqn:Ht; simpl.
    + destruct H as [H | H]; [discriminate |]. rewrite H. reflexivity.
    + reflexivity.
  - intros data Ht Hnd Hc. unfold EmbeddingApp.embed. run_monad. simpl.
    unfold EmbeddingApp.missing. rewrite Ht. simpl.
    destruct data as [| b | z | f | s | l | d]; simpl in *;
      try (eexists; reflexivity).
    + destruct (Str.contains "text" s); [eexists; reflexivity | contradiction].
    + destruct (existsb (Py.eq_str "text") l); [eexists; reflexivity | contradiction].
    + destruct (Hnd d eq_refl).
  - intros data text H Htext. destruct (Hsub _ _ _ H) as (d & -> & Hd).
    unfold EmbeddingApp.embed. run_monad. simpl.
    rewrite (missing_present _ _ _ Hd), Hd.
    destruct Htext as [-> | Hs]; [reflexivity |].
    destruct text; try reflexivity. discriminate.
  - intros data texts H Htexts. destruct (Hsub _ _ _ H) as (d & -> & Hd).
    unfold EmbeddingApp.embed_batch. run_monad. simpl.
    rewrite (missing_present _ _ _ Hd), Hd.
    destruct Htexts as [-> | Hl]; [reflexivity |].
    destruct texts; try reflexivity. discriminate.
Qed.

(** The service asks the model for a normalised embedding. *)
Lemma embed_issued (d : gmap string pyobj) (c : ascii) (s : string) (w : world Σ) :
  d !! "text" = Some (VStr (String c s)) ->
  issued (EmbeddingApp.embed E {| EmbeddingApp.get_json := Returned (VDict d) |} w).2
  = (issued w ++ [EncodeOne (String c s) true])%list.
Proof.
  intros H. unfold EmbeddingApp.embed. run_monad. simpl.
  rewrite (missing_present _ _ _ H), H. simpl.
  destruct (encode_one E (String c s) true (outside w)) as [[embedding | e] s']; reflexivity.
Qed.

End EmbeddingAppFacts.

(** A body that is valid JSON but not an object, such as [5], is not answered
    by the validation: the membership test raises, and the handler's
    [except] turns that into a 500. *)
Example embed_number_body :
  (EmbeddingApp.embed Sample.externals {| EmbeddingApp.get_json := Returned (VInt 5) |}
     Sample.start).1
  = Returned {| EmbeddingApp.body :=
                  {[ "error" := VStr "argument of type 'int' is not iterable" ]};
                EmbeddingApp.status_code := 500 |}.
Proof. vm_compute. reflexivity. Qed.

(** C8 as stated fails.  The body [5] is JSON without a [text] field
    ([data['text']] raises), and [POST /embed] answers it 500, not 400 with
    ["Missing text field"]. *)
Lemma embed_number_lacks_text_gets_500 :
  (exists e, EmbeddingApp.subscript (VInt 5) "text" = Raised e)
  /\ (EmbeddingApp.embed Sample.externals {| EmbeddingApp.get_json := Returned (VInt 5) |}
        Sample.start).1
     = Returned {| EmbeddingApp.body :=
                     {[ "error" := VStr "argument of type 'int' is not iterable" ]};
                   EmbeddingApp.status_code := 500 |}
  /\ 500%Z <> 400%Z.
Proof. split; [eexists; reflexivity | split; [vm_compute; reflexivity | discriminate]]. Qed.

(** ** The properties at work in the sample world *)

(** C1 as stated fails.  The PDF cannot be parsed, so the extraction stage
    raises; [process_pdf] returns the line of its handler, and the status
    text accumulated up to that stage is not in what it returns. *)
Lemma process_pdf_exception_drops_status :
  let run :=
    Main.process_pdf Sample.externals Sample.client (Main.FileObject "/tmp/broken.pdf")
      Sample.start in
  (DocumentProcessor.extract_text_from_pdf Sample.externals Main.processor "/tmp/broken.pdf"
     Sample.start).1
  = Raised (Exception "Error extracting text from PDF: EOF marker not found")
  /\ run.1
     = Returned "❌ Error processing file: Error extracting text from PDF: EOF marker not found"
  /\ Str.contains (Status.extracting "broken.pdf")
       "❌ Error processing file: Error extracting text from PDF: EOF marker not found"
     = false.
Proof. vm_compute. repeat split. Qed.

(** C1 in the sample world: the PDF that cannot be parsed. *)
Lemma process_pdf_failure_halts_witness :
  Main.process_pdf Sample.externals Sample.client (Main.FileObject "/tmp/broken.pdf")
    Sample.start
  = (Returned "❌ Error processing file: Error extracting text from PDF: EOF marker not found",
     World ∅ [OpenPdf "/tmp/broken.pdf"]).
Proof.
  apply (proj1 (proj2 (process_pdf_failure_halts Sample.externals Sample.client
                         "/tmp/broken.pdf" Sample.start))
           (Exception "Error extracting text from PDF: EOF marker not found")).
  vm_compute. reflexivity.
Defined.

(** C9 in the sample world: the PDF whose pages carry no text. *)
Lemma process_pdf_empty_text_witness :
  Main.process_pdf Sample.externals Sample.client (Main.FileObject "/tmp/blank.pdf")
    Sample.start
  = (Returned (Status.extracting (Main.path_name "/tmp/blank.pdf")
               ++ "❌ Error: Could not extract text from PDF"),
     World ∅ [OpenPdf "/tmp/blank.pdf"])
  /\ [OpenPdf "/tmp/blank.pdf"] = ([] ++ [OpenPdf "/tmp/blank.pdf"])%list.
Proof.
  apply (process_pdf_empty_text Sample.externals Sample.client "/tmp/blank.pdf" Sample.start
           (World ∅ [OpenPdf "/tmp/blank.pdf"])).
  vm_compute. reflexivity.
Defined.

(** C5 in the sample world: two chunks and one embedding. *)
Lemma upload_documents_length_mismatch_witness :
  AzureSearchClient.upload_documents Sample.externals Sample.client ["a"; "b"]
    [Sample.vector] "tax.2024.pdf" Sample.start
  = (Returned {[ "success" := SBool false;
                 "error" := SStr "Number of chunks must match number of embeddings" ]},
     Sample.start).
Proof. apply upload_documents_length_mismatch. simpl. lia. Defined.

(** C4 in the sample world: two chunks of [tax.2024.pdf]. *)
Lemma upload_documents_builds_witness :
  length ["a"; "b"] = length [Sample.vector; Sample.vector]
  /\ exists documents,
      issued (AzureSearchClient.upload_documents Sample.externals Sample.client ["a"; "b"]
                [Sample.vector; Sample.vector] "tax.2024.pdf" Sample.start).2
      = [DocumentsUpload "cpa-documents" documents]
      /\ Document.id <$> documents = ["tax_2024_pdf_0"; "tax_2024_pdf_1"]
      /\ Document.chunk_index <$> documents = [0%Z; 1%Z]
      /\ Document.upload_date <$> documents = ["2024-03-09T14:05:07Z"; "2024-03-09T14:05:07Z"].
Proof.
  split; [reflexivity |].
  destruct (upload_documents_builds Sample.externals Sample.client ["a"; "b"]
              [Sample.vector; Sample.vector] "tax.2024.pdf" Sample.start eq_refl)
    as (documents & Hissued & _).
  exists documents. split; [exact Hissued |].
  vm_compute in Hissued. injection Hissued as <-. vm_compute. repeat split.
Defined.

(** C7 in the sample world: the service refuses the search of the empty index. *)
Lemma result_values_and_search_raises_witness :
  AzureSearchClient.search_similar Sample.externals Sample.client Sample.vector 5 Sample.start
  = (Raised (Exception "Error searching documents: The index is empty"),
     World ∅
       [DocumentsSearch "cpa-documents"
          {| search_text := None;
             vector_queries :=
               [ {| vq_vector := Sample.vector; vq_k_nearest_neighbors := 5;
                    vq_fields := "content_vector" |} ];
             select := ["content"; "source_file"; "chunk_index"] |}]).
Proof.
  apply (proj2 (proj2 (proj2 (result_values_and_search_raises Sample.externals Sample.client
                                384 [] [] "" Sample.vector 5 Sample.start)))
           (Exception "The index is empty") ∅).
  vm_compute. reflexivity.
Defined.

(** C8 in the sample world: the bodies [null], [5] and [{"texts": []}]. *)
Lemma embed_rejects_bad_input_witness :
  EmbeddingApp.embed Sample.externals {| EmbeddingApp.get_json := Returned VNone |}
    Sample.start
  = (Returned {| EmbeddingApp.body := {[ "error" := VStr "Missing text field" ]};
                 EmbeddingApp.status_code := 400 |}, Sample.start)
  /\ (exists message,
        EmbeddingApp.embed Sample.externals {| EmbeddingApp.get_json := Returned (VInt 5) |}
          Sample.start
        = (Returned {| EmbeddingApp.body := {[ "error" := VStr message ]};
                       EmbeddingApp.status_code := 500 |}, Sample.start))
  /\ EmbeddingApp.embed_batch Sample.externals
       {| EmbeddingApp.get_json := Returned (VDict {[ "texts" := VList [] ]}) |} Sample.start
     = (Returned {| EmbeddingApp.body := {[ "error" := VStr "texts must be a non-empty array" ]};
                    EmbeddingApp.status_code := 400 |}, Sample.start).
Proof.
  pose proof (embed_rejects_bad_input Sample.externals Sample.start) as (Ha & Hb & _ & Hd).
  split; [| split].
  - apply Ha. left. reflexivity.
  - apply Hb; [reflexivity | intros d; discriminate | discriminate].
  - apply (Hd _ (VList [])); [reflexivity | left; reflexivity].
Defined.

(** A whole run: the file with text on two of its three pages is extracted,
    chunked, embedded and uploaded, and its one document is in the index. *)
Example process_pdf_sample_run :
  let text :=
    "--- Page 1 ---" ++ Str.nl ++ Str.nl ++ "Tax rules." ++ Str.nl ++ Str.nl
    ++ "--- Page 3 ---" ++ Str.nl ++ Str.nl ++ "More." in
  let run :=
    Main.process_pdf Sample.externals Sample.client
      (Main.FileObject "/tmp/gradio/tax.2024.pdf") Sample.start in
  run.1
  = Returned (Status.uploading "tax.2024.pdf" text [text] [Sample.vector]
              ++ "✅ Successfully uploaded 1 documents to Azure" ++ Str.nl
              ++ "📊 Index: cpa-documents" ++ Str.nl)
  /\ Document.content <$> outside run.2 !! "tax_2024_pdf_0" = Some text
  /\ length (issued run.2) = 4.
Proof. vm_compute. repeat split. Qed.

(** * Further properties *)

(** ** Prefixes, reversal and trimming *)

Lemma append_cons (c : ascii) (a b : string) : String c a ++ b = String c (a ++ b).
Proof. reflexivity. Qed.

Lemma append_nil_r (a : string) : a ++ "" = a.
Proof. induction a as [| c a IH]; [reflexivity |]. rewrite append_cons, IH. reflexivity. Qed.

Lemma append_assoc (a b c : string) : (a ++ b) ++ c = a ++ b ++ c.
Proof.
  induction a as [| x a IH]; [reflexivity |]. rewrite !append_cons, IH. reflexivity.
Qed.

Lemma length_append (a b : string) :
  String.length (a ++ b) = String.length a + String.length b.
Proof.
  induction a as [| c a IH]; [reflexivity |]. rewrite append_cons. simpl. rewrite IH.
  reflexivity.
Qed.

Lemma drop_prefix_Some (p s r : string) : Str.drop_prefix p s = Some r -> s = p ++ r.
Proof.
  revert s. induction p as [| a p IH]; intros s; simpl.
  - intros [= ->]. reflexivity.
  - destruct s as [| b s]; [discriminate |].
    destruct (Ascii.eqb_spec a b) as [-> | _]; [| discriminate].
    intros H. rewrite append_cons, (IH s H). reflexivity.
Qed.

Lemma drop_prefix_app (p a b r : string) :
  Str.drop_prefix p a = Some r -> Str.drop_prefix p (a ++ b) = Some (r ++ b).
Proof.
  revert a. induction p as [| x p IH]; intros a; simpl.
  - intros [= ->]. reflexivity.
  - destruct a as [| y a]; [discriminate |]. rewrite append_cons.
    destruct (Ascii.eqb x y); [apply IH | discriminate].
Qed.

Lemma drop_any_prefix_Some (ps : list string) (s r : string) :
  Str.drop_any_prefix ps s = Some r -> exists p, p ∈ ps /\ s = p ++ r.
Proof.
  induction ps as [| p ps IH]; simpl; [discriminate |].
  destruct (Str.drop_prefix p s) as [r' |] eqn:Hp.
  - intros [= <-]. exists p. split; [left | exact (drop_prefix_Some _ _ _ Hp)].
  - intros H. destruct (IH H) as (q & Hq & ->). exists q. split; [right |]; auto.
Qed.

Lemma drop_any_prefix_app (ps : list string) (a b : string) :
  is_Some (Str.drop_any_prefix ps a) -> is_Some (Str.drop_any_prefix ps (a ++ b)).
Proof.
  induction ps as [| p ps IH]; simpl; [auto |].
  destruct (Str.drop_prefix p a) as [r |] eqn:Hp.
  - intros _. rewrite (drop_prefix_app _ _ b _ Hp). eauto.
  - intros H. destruct (Str.drop_prefix p (a ++ b)); eauto.
Qed.

Lemma drop_any_prefix_empty (ps : list string) :
  Forall (fun p => p <> "") ps -> Str.drop_any_prefix ps "" = None.
Proof.
  induction 1 as [| p ps Hp _ IH]; simpl; [reflexivity |].
  destruct p; [contradiction | exact IH].
Qed.

(** Once enough steps were given, nothing is left to strip. *)
Lemma lstrip_fuel_done (ws : list string) (fuel : nat) (s : string) :
  Forall (fun p => p <> "") ws -> String.length s <= fuel ->
  Str.drop_any_prefix ws (Str.lstrip_fuel ws fuel s) = None.
Proof.
  intros Hws. revert s. induction fuel as [| fuel IH]; intros s Hlen; simpl.
  - destruct s; [apply drop_any_prefix_empty, Hws | simpl in Hlen; lia].
  - destruct (Str.drop_any_prefix ws s) as [r |] eqn:Hr; [| exact Hr].
    apply IH. destruct (drop_any_prefix_Some _ _ _ Hr) as (p & Hp & ->).
    rewrite length_append in Hlen.
    assert (p <> "") as Hne by (rewrite Forall_forall in Hws; auto).
    destruct p; [contradiction | simpl in Hlen; lia].
Qed.

(** What is stripped is a prefix. *)
Lemma lstrip_fuel_suffix (ws : list string) (fuel : nat) (s : string) :
  exists p, s = p ++ Str.lstrip_fuel ws fuel s.
Proof.
  revert s. induction fuel as [| fuel IH]; intros s; simpl; [exists ""; reflexivity |].
  destruct (Str.drop_any_prefix ws s) as [r |] eqn:Hr; [| exists ""; reflexivity].
  destruct (drop_any_prefix_Some _ _ _ Hr) as (p & _ & ->).
  destruct (IH r) as [q Hq]. exists (p ++ q). rewrite append_assoc, <- Hq. reflexivity.
Qed.

Lemma list_ascii_of_string_app (a b : string) :
  list_ascii_of_string (a ++ b) = (list_ascii_of_string a ++ list_ascii_of_string b)%list.
Proof.
  induction a as [| c a IH]; [reflexivity |]. rewrite append_cons. simpl. rewrite IH.
  reflexivity.
Qed.

Lemma string_of_list_ascii_app (x y : list ascii) :
  string_of_list_ascii (x ++ y) = string_of_list_ascii x ++ string_of_list_ascii y.
Proof.
  induction x as [| c x IH]; [reflexivity |]. simpl. rewrite IH, append_cons. reflexivity.
Qed.

Lemma rev_rev (s : string) : Str.rev (Str.rev s) = s.
Proof.
  unfold Str.rev. rewrite list_ascii_of_string_of_list_ascii, rev_involutive.
  apply string_of_list_ascii_of_string.
Qed.

Lemma rev_append (a b : string) : Str.rev (a ++ b) = Str.rev b ++ Str.rev a.
Proof.
  unfold Str.rev. rewrite list_ascii_of_string_app, rev_app_distr.
  apply string_of_list_ascii_app.
Qed.

Lemma length_rev (s : string) : String.length (Str.rev s) = String.length s.
Proof.
  unfold Str.rev.
  assert (Hl : forall l, String.length (string_of_list_ascii l) = length l).
  { induction l as [| c l IH]; simpl; auto. }
  assert (Hs : forall t, length (list_ascii_of_string t) = String.length t).
  { induction t as [| c t IH]; simpl; auto. }
  rewrite Hl, length_rev, Hs. reflexivity.
Qed.

Lemma whitespace_nonempty : Forall (fun p => p <> "") Str.whitespace.
Proof. repeat constructor; discriminate. Qed.

Lemma reversed_whitespace_nonempty : Forall (fun p => p <> "") (map Str.rev Str.whitespace).
Proof. repeat constructor; discriminate. Qed.

(** [s.strip()] neither starts nor ends with white space. *)
Lemma strip_trimmed (s : string) :
  starts_with_space (Str.strip s) = false /\ ends_with_space (Str.strip s) = false.
Proof.
  unfold Str.strip. set (t := Str.lstrip s).
  assert (Ht : Str.drop_any_prefix Str.whitespace t = None).
  { apply lstrip_fuel_done; [apply whitespace_nonempty | reflexivity]. }
  unfold Str.rstrip.
  set (r := Str.lstrip_fuel (map Str.rev Str.whitespace) (String.length t) (Str.rev t)).
  assert (Hr : Str.drop_any_prefix (map Str.rev Str.whitespace) r = None).
  { apply lstrip_fuel_done; [apply reversed_whitespace_nonempty |].
    rewrite length_rev. reflexivity. }
  split.
  - unfold starts_with_space.
    destruct (Str.drop_any_prefix Str.whitespace (Str.rev r)) as [x |] eqn:Hx; [| reflexivity].
    destruct (lstrip_fuel_suffix (map Str.rev Str.whitespace) (String.length t) (Str.rev t))
      as [p Hp].
    fold r in Hp. apply (f_equal Str.rev) in Hp. rewrite rev_rev, rev_append in Hp.
    assert (is_Some (Str.drop_any_prefix Str.whitespace t)) as [y Hy].
    { rewrite Hp. apply drop_any_prefix_app. eauto. }
    congruence.
  - unfold ends_with_space. rewrite rev_rev, Hr. reflexivity.
Qed.

(** ** document_processor.py: extraction *)

(** The loop over the pages of a document in two parts is the loop over
    the first part, then over the second with the page count carried on;
    a page that raises in the first part ends it. *)
Lemma read_pages_app (n : nat) (first rest : list (outcome string)) (text : string) :
  DocumentProcessor.read_pages n (first ++ rest) text
  = match DocumentProcessor.read_pages n first text with
    | Returned text' => DocumentProcessor.read_pages (n + length first) rest text'
    | Raised e => Raised e
    end.
Proof.
  revert n text. induction first as [| [page | e] first IH]; intros n text; simpl.
  - rewrite Nat.add_0_r. reflexivity.
  - rewrite IH. replace (S n + length first) with (n + S (length first)) by lia. reflexivity.
  - reflexivity.
Qed.

Lemma read_pages_blank (n : nat) (pages : list (outcome string)) (text : string) :
  Forall (fun page => page = Returned "") pages ->
  DocumentProcessor.read_pages n pages text = Returned text.
Proof.
  intros H. revert n. induction H as [| page pages -> _ IH]; intros n; simpl; auto.
Qed.

Lemma read_pages_returns (n : nat) (pages : list (outcome string)) (text : string) :
  Forall (fun page => exists t, page = Returned t) pages ->
  exists text', DocumentProcessor.read_pages n pages text = Returned text'.
Proof.
  intros H. revert n text. induction H as [| page pages [t ->] _ IH]; intros n text; simpl; eauto.
Qed.

(** X4.  A page with text is written behind a marker that carries its position
    in the document, counted from 1: pages before it that had no text are
    counted too. *)
Theorem read_pages_marker (before : list (outcome string)) (page : string) :
  Forall (fun p => exists t, p = Returned t) before -> page <> "" ->
  exists text,
    DocumentProcessor.read_pages 0 before "" = Returned text
    /\ DocumentProcessor.read_pages 0 (before ++ [Returned page]) ""
       = Returned ((text ++ Str.nl ++ Str.nl ++ "--- Page "
                    ++ Str.str_int (Z.of_nat (length before) + 1) ++ " ---"
                    ++ Str.nl ++ Str.nl)
                   ++ page).
Proof.
  intros Hb Hpage. destruct (read_pages_returns 0 before "" Hb) as [text Ht].
  exists text. split; [exact Ht |]. rewrite read_pages_app, Ht. simpl.
  destruct page; [contradiction | reflexivity].
Qed.

Section Extraction.
Context {Σ : Type} (E : Externals Σ) (self : DocumentProcessor.t).

(** X1.  The text [extract_text_from_pdf] returns is trimmed: it neither starts
    nor ends with a white-space character. *)
Theorem extract_text_trimmed (pdf_path text : string) (w w' : world Σ) :
  DocumentProcessor.extract_text_from_pdf E self pdf_path w = (Returned text, w') ->
  starts_with_space text = false /\ ends_with_space text = false.
Proof.
  unfold DocumentProcessor.extract_text_from_pdf. run_monad.
  destruct (pdf_pages E pdf_path (outside w)) as [[pages | e] s]; simpl; [| discriminate].
  destruct (DocumentProcessor.read_pages 0 pages "") as [t | e]; simpl; [| discriminate].
  intros [= <- _]. apply strip_trimmed.
Qed.

(** X2.  A PDF that has no page, or whose pages all extract to the empty string,
    gives the empty text: no page marker is written for a page without text. *)
Theorem extract_text_blank (pdf_path : string) (pages : list (outcome string))
  (w : world Σ) (s : Σ) :
  pdf_pages E pdf_path (outside w) = (Returned pages, s) ->
  Forall (fun page => page = Returned "") pages ->
  DocumentProcessor.extract_text_from_pdf E self pdf_path w
  = (Returned "", World s (issued w ++ [OpenPdf pdf_path])).
Proof.
  intros Hp Hblank. unfold DocumentProcessor.extract_text_from_pdf. run_monad.
  rewrite Hp. simpl. rewrite (read_pages_blank _ _ _ Hblank). reflexivity.
Qed.

(** X3.  When a page cannot be extracted, the pages before it having been read,
    extraction raises an [Exception] that carries the message of the page's
    error behind ["Error extracting text from PDF: "]; the pages after it
    play no part. *)
Theorem extract_text_page_failure (pdf_path : string) (before after : list (outcome string))
  (e : exn) (w : world Σ) (s : Σ) :
  pdf_pages E pdf_path (outside w) = (Returned (before ++ Raised e :: after)%list, s) ->
  Forall (fun page => exists t, page = Returned t) before ->
  DocumentProcessor.extract_text_from_pdf E self pdf_path w
  = (Raised (Exception ("Error extracting text from PDF: " ++ exn_str e)),
     World s (issued w ++ [OpenPdf pdf_path])).
Proof.
  intros Hp Hbefore. unfold DocumentProcessor.extract_text_from_pdf. run_monad.
  rewrite Hp. simpl. rewrite read_pages_app.
  destruct (read_pages_returns 0 before "" Hbefore) as [t ->]. reflexivity.
Qed.

End Extraction.

(** ** azure_search.py: the value of an upload *)

Lemma length_build_documents chunks embeddings source_file upload_time :
  length chunks = length embeddings ->
  length (AzureSearchClient.build_documents chunks embeddings source_file upload_time)
  = length chunks.
Proof.
  intros H. unfold AzureSearchClient.build_documents. rewrite length_imap, length_zip. lia.
Qed.

Section Upload.
Context {Σ : Type} (E : Externals Σ) (self : AzureSearchClient.t).

Lemma upload_documents_ok chunks embeddings source_file (w : world Σ) (s : Σ) u :
  let name := AzureSearchClient.index_name self in
  let documents :=
    AzureSearchClient.build_documents chunks embeddings source_file
      (isoformat (utcnow E (outside w)) ++ "Z") in
  length chunks = length embeddings ->
  documents_upload E name documents (outside w) = (Returned u, s) ->
  AzureSearchClient.upload_documents E self chunks embeddings source_file w
  = (Returned (uploaded name (length chunks)),
     World s (issued w ++ [DocumentsUpload name documents])).
Proof.
  intros name documents Hlen Hup.
  rewrite upload_documents_run, (proj2 (Nat.eqb_eq _ _) Hlen).
  cbv zeta. fold name. fold documents. rewrite Hup.
  unfold documents. rewrite length_build_documents by exact Hlen. reflexivity.
Qed.

Lemma upload_documents_failed chunks embeddings source_file (w : world Σ) (s : Σ) e :
  let name := AzureSearchClient.index_name self in
  let documents :=
    AzureSearchClient.build_documents chunks embeddings source_file
      (isoformat (utcnow E (outside w)) ++ "Z") in
  length chunks = length embeddings ->
  documents_upload E name documents (outside w) = (Raised e, s) ->
  AzureSearchClient.upload_documents E self chunks embeddings source_file w
  = (Returned {[ "success" := SBool false; "error" := SStr (exn_str e) ]},
     World s (issued w ++ [DocumentsUpload name documents])).
Proof.
  intros name documents Hlen Hup.
  rewrite upload_documents_run, (proj2 (Nat.eqb_eq _ _) Hlen).
  cbv zeta. fold name. fold documents. rewrite Hup. reflexivity.
Qed.

(** X5.  With lists of equal length, [upload_documents] issues the batch as its
    one call.  When the service accepts it, the result reports success with
    [count] the number of chunks and [index_name] the index of the client;
    when the service raises [e], the result is the failure dictionary with
    the message of [e]. *)
Theorem upload_documents_value chunks embeddings source_file (w : world Σ) :
  let name := AzureSearchClient.index_name self in
  let documents :=
    AzureSearchClient.build_documents chunks embeddings source_file
      (isoformat (utcnow E (outside w)) ++ "Z") in
  length chunks = length embeddings ->
  (forall u s,
      documents_upload E name documents (outside w) = (Returned u, s) ->
      AzureSearchClient.upload_documents E self chunks embeddings source_file w
      = (Returned {[ "success" := SBool true;
                     "count" := SInt (Z.of_nat (length chunks));
                     "index_name" := SStr name;
                     "message" :=
                       SStr ("Uploaded " ++ Str.str_int (Z.of_nat (length chunks))
                             ++ " documents successfully") ]},
         World s (issued w ++ [DocumentsUpload name documents])))
  /\ (forall e s,
        documents_upload E name documents (outside w) = (Raised e, s) ->
        AzureSearchClient.upload_documents E self chunks embeddings source_file w
        = (Returned {[ "success" := SBool false; "error" := SStr (exn_str e) ]},
           World s (issued w ++ [DocumentsUpload name documents]))).
Proof.
  intros name documents Hlen. split.
  - intros u s Hu. exact (upload_documents_ok _ _ _ _ _ _ Hlen Hu).
  - intros e s Hu. exact (upload_documents_failed _ _ _ _ _ _ Hlen Hu).
Qed.

End Upload.

(** ** main.py: the whole of a run *)

Lemma getitem_uploaded_success {Σ} name n (w : world Σ) :
  getitem (uploaded name n) "success" w = (Returned (SBool true), w).
Proof. unfold getitem, uploaded. rewrite lookup_insert_eq. reflexivity. Qed.

Lemma getitem_uploaded_count {Σ} name n (w : world Σ) :
  getitem (uploaded name n) "count" w = (Returned (SInt (Z.of_nat n)), w).
Proof.
  unfold getitem, uploaded. rewrite lookup_insert_ne by discriminate.
  rewrite lookup_insert_eq. reflexivity.
Qed.

Lemma getitem_uploaded_index_name {Σ} name n (w : world Σ) :
  getitem (uploaded name n) "index_name" w = (Returned (SStr name), w).
Proof.
  unfold getitem, uploaded. do 2 (rewrite lookup_insert_ne by discriminate).
  rewrite lookup_insert_eq. reflexivity.
Qed.

Section Pipeline.
Context {Σ : Type} (E : Externals Σ) (azure_client : AzureSearchClient.t).

(** The stages of [process_pdf] on an uploaded file, one after the other. *)
Lemma process_pdf_run (pdf_path : string) (w : world Σ) :
  let file_name := Main.path_name pdf_path in
  let name := AzureSearchClient.index_name azure_client in
  let failed e := "❌ Error processing file: " ++ exn_str e in
  Main.process_pdf E azure_client (Main.FileObject pdf_path) w
  = match DocumentProcessor.extract_text_from_pdf E Main.processor pdf_path w with
    | (Raised e, w1) => (Returned (failed e), w1)
    | (Returned text, w1) =>
        if Str.is_empty text
        then (Returned (Status.extracting file_name
                        ++ "❌ Error: Could not extract text from PDF"), w1)
        else
          match DocumentProcessor.chunk_text E Main.processor text w1 with
          | (Raised e, w2) => (Returned (failed e), w2)
          | (Returned chunks, w2) =>
              match DocumentProcessor.generate_embeddings E Main.processor chunks w2 with
              | (Raised e, w3) => (Returned (failed e), w3)
              | (Returned embeddings, w3) =>
                  let status := Status.uploading file_name text chunks embeddings in
                  let documents :=
                    AzureSearchClient.build_documents chunks embeddings file_name
                      (isoformat (utcnow E (outside w3)) ++ "Z") in
                  let w4 s := World s (issued w3 ++ [DocumentsUpload name documents]) in
                  if Nat.eqb (length chunks) (length embeddings)
                  then
                    match documents_upload E name documents (outside w3) with
                    | (Returned _, s) =>
                        (Returned ((status ++ "✅ Successfully uploaded "
                                    ++ Str.str_int (Z.of_nat (length chunks))
                                    ++ " documents to Azure" ++ Str.nl)
                                   ++ "📊 Index: " ++ name ++ Str.nl), w4 s)
                    | (Raised e, s) =>
                        (Returned (status ++ "❌ Upload failed: " ++ exn_str e ++ Str.nl), w4 s)
                    end
                  else
                    (Returned (status ++ "❌ Upload failed: "
                               ++ "Number of chunks must match number of embeddings"
                               ++ Str.nl), w3)
              end
          end
    end.
Proof.
  intros file_name name failed.
  unfold Main.process_pdf, try_except.
  rewrite (bind_returned _ _ w pdf_path w) by reflexivity. cbv zeta. fold file_name.
  destruct (DocumentProcessor.extract_text_from_pdf E Main.processor pdf_path w)
    as [[text | e] w1] eqn:Hx.
  2: { rewrite (bind_raised _ _ _ _ _ Hx). reflexivity. }
  rewrite (bind_returned _ _ _ _ _ Hx).
  destruct (Str.is_empty text); [reflexivity |].
  destruct (DocumentProcessor.chunk_text E Main.processor text w1) as [[chunks | e] w2] eqn:Hc.
  2: { rewrite (bind_raised _ _ _ _ _ Hc). reflexivity. }
  rewrite (bind_returned _ _ _ _ _ Hc).
  destruct (DocumentProcessor.generate_embeddings E Main.processor chunks w2)
    as [[embeddings | e] w3] eqn:He.
  2: { rewrite (bind_raised _ _ _ _ _ He). reflexivity. }
  rewrite (bind_returned _ _ _ _ _ He).
  destruct (Nat.eqb_spec (length chunks) (length embeddings)) as [Hlen | Hlen].
  - destruct (documents_upload E name
                (AzureSearchClient.build_documents chunks embeddings file_name
                   (isoformat (utcnow E (outside w3)) ++ "Z")) (outside w3))
      as [[u | e] s] eqn:Hu.
    + rewrite (bind_returned _ _ _ _ _
                 (upload_documents_ok E azure_client _ _ _ _ _ _ Hlen Hu)).
      rewrite (bind_returned _ _ _ _ _ (getitem_uploaded_success _ _ _)).
      change (Py.scalar_truthy (SBool true)) with true. cbv iota.
      rewrite (bind_returned _ _ _ _ _ (getitem_uploaded_count _ _ _)).
      rewrite (bind_returned _ _ _ _ _ (getitem_uploaded_index_name _ _ _)).
      reflexivity.
    + rewrite (bind_returned _ _ _ _ _
                 (upload_documents_failed E azure_client _ _ _ _ _ _ Hlen Hu)).
      rewrite (bind_returned _ _ _ _ _ (getitem_failure_success e _)).
      change (Py.scalar_truthy (SBool false)) with false. cbv iota.
      rewrite (bind_returned _ _ _ _ _ (getitem_failure_error e _)).
      reflexivity.
  - assert (Hu := upload_documents_run E azure_client chunks embeddings file_name w3).
    destruct (Nat.eqb_spec (length chunks) (length embeddings)); [contradiction |].
    rewrite (bind_returned _ _ _ _ _ Hu).
    rewrite (bind_returned _ _ _ _ _ (getitem_failure_success _ _)).
    change (Py.scalar_truthy (SBool false)) with false. cbv iota.
    rewrite (bind_returned _ _ _ _ _ (getitem_failure_error _ _)).
    reflexivity.
Qed.

Lemma generate_embeddings_forwards self chunks (w : world Σ) :
  DocumentProcessor.generate_embeddings E self chunks w
  = match encode_many E (VStr <$> chunks) false (outside w) with
    | (Returned embeddings, s) =>
        (Returned embeddings, World s (issued w ++ [EncodeMany (VStr <$> chunks) false]))
    | (Raised e, s) =>
        (Raised (Exception ("Error generating embeddings: " ++ exn_str e)),
         World s (issued w ++ [EncodeMany (VStr <$> chunks) false]))
    end.
Proof.
  unfold DocumentProcessor.generate_embeddings. run_monad.
  destruct (encode_many E _ false (outside w)) as [[embeddings | e] s]; reflexivity.
Qed.

(** X6.  A run in which every stage goes through: the text is split with the
    default configuration (1000, 200), the chunks are embedded without
    normalisation, the batch is uploaded to the client's index, each by one
    call and in this order, and the status ends with the number of chunks
    and the name of the index. *)
Theorem process_pdf_success (pdf_path text : string) chunks embeddings
  (w w1 : world Σ) (s2 s3 s4 : Σ) u :
  let file_name := Main.path_name pdf_path in
  let name := AzureSearchClient.index_name azure_client in
  let documents :=
    AzureSearchClient.build_documents chunks embeddings file_name
      (isoformat (utcnow E s3) ++ "Z") in
  DocumentProcessor.extract_text_from_pdf E Main.processor pdf_path w = (Returned text, w1) ->
  text <> "" ->
  split_text E 1000 200 text (outside w1) = (Returned chunks, s2) ->
  encode_many E (VStr <$> chunks) false s2 = (Returned embeddings, s3) ->
  length chunks = length embeddings ->
  documents_upload E name documents s3 = (Returned u, s4) ->
  Main.process_pdf E azure_client (Main.FileObject pdf_path) w
  = (Returned ((Status.uploading file_name text chunks embeddings
                ++ "✅ Successfully uploaded " ++ Str.str_int (Z.of_nat (length chunks))
                ++ " documents to Azure" ++ Str.nl)
               ++ "📊 Index: " ++ name ++ Str.nl),
     World s4 (issued w1 ++ [SplitText 1000 200 text; EncodeMany (VStr <$> chunks) false;
                             DocumentsUpload name documents])).
Proof.
  intros file_name name documents Hx Htext Hs He Hlen Hu.
  rewrite process_pdf_run. cbv zeta. rewrite Hx.
  destruct text as [| c text']; [contradiction |]. set (text := String c text') in *.
  change (Str.is_empty text) with false. cbv iota.
  rewrite chunk_text_forwards. cbv zeta.
  change (DocumentProcessor.chunk_size Main.processor) with 1000%Z.
  change (DocumentProcessor.chunk_overlap Main.processor) with 200%Z.
  rewrite Hs, generate_embeddings_forwards. simpl outside. rewrite He.
  rewrite (proj2 (Nat.eqb_eq _ _) Hlen). simpl outside. simpl issued.
  fold file_name. fold name. fold documents. rewrite Hu.
  rewrite <- !app_assoc. reflexivity.
Qed.

(** X7.  When the model answers with a number of vectors that is not the number
    of chunks, the run ends with the upload failure ["Number of chunks must
    match number of embeddings"], and the search service has not been
    called. *)
Theorem process_pdf_count_mismatch (pdf_path text : string) chunks embeddings
  (w w1 : world Σ) (s2 s3 : Σ) :
  let file_name := Main.path_name pdf_path in
  DocumentProcessor.extract_text_from_pdf E Main.processor pdf_path w = (Returned text, w1) ->
  text <> "" ->
  split_text E 1000 200 text (outside w1) = (Returned chunks, s2) ->
  encode_many E (VStr <$> chunks) false s2 = (Returned embeddings, s3) ->
  length chunks <> length embeddings ->
  Main.process_pdf E azure_client (Main.FileObject pdf_path) w
  = (Returned (Status.uploading file_name text chunks embeddings
               ++ "❌ Upload failed: Number of chunks must match number of embeddings"
               ++ Str.nl),
     World s3 (issued w1 ++ [SplitText 1000 200 text; EncodeMany (VStr <$> chunks) false])).
Proof.
  intros file_name Hx Htext Hs He Hlen.
  rewrite process_pdf_run. cbv zeta. rewrite Hx.
  destruct text as [| c text']; [contradiction |]. set (text := String c text') in *.
  change (Str.is_empty text) with false. cbv iota.
  rewrite chunk_text_forwards. cbv zeta.
  change (DocumentProcessor.chunk_size Main.processor) with 1000%Z.
  change (DocumentProcessor.chunk_overlap Main.processor) with 200%Z.
  rewrite Hs, generate_embeddings_forwards. simpl outside. rewrite He.
  destruct (Nat.eqb_spec (length chunks) (length embeddings)); [contradiction |].
  simpl issued. rewrite <- !app_assoc. reflexivity.
Qed.

(** X8.  When the search service refuses the batch with [e], the run ends with
    ["❌ Upload failed: "] and the message of [e] after the accumulated
    status. *)
Theorem process_pdf_upload_refused (pdf_path text : string) chunks embeddings
  (w w1 : world Σ) (s2 s3 s4 : Σ) e :
  let file_name := Main.path_name pdf_path in
  let name := AzureSearchClient.index_name azure_client in
  let documents :=
    AzureSearchClient.build_documents chunks embeddings file_name
      (isoformat (utcnow E s3) ++ "Z") in
  DocumentProcessor.extract_text_from_pdf E Main.processor pdf_path w = (Returned text, w1) ->
  text <> "" ->
  split_text E 1000 200 text (outside w1) = (Returned chunks, s2) ->
  encode_many E (VStr <$> chunks) false s2 = (Returned embeddings, s3) ->
  length chunks = length embeddings ->
  documents_upload E name documents s3 = (Raised e, s4) ->
  Main.process_pdf E azure_client (Main.FileObject pdf_path) w
  = (Returned (Status.uploading file_name text chunks embeddings
               ++ "❌ Upload failed: " ++ exn_str e ++ Str.nl),
     World s4 (issued w1 ++ [SplitText 1000 200 text; EncodeMany (VStr <$> chunks) false;
                             DocumentsUpload name documents])).
Proof.
  intros file_name name documents Hx Htext Hs He Hlen Hu.
  rewrite process_pdf_run. cbv zeta. rewrite Hx.
  destruct text as [| c text']; [contradiction |]. set (text := String c text') in *.
  change (Str.is_empty text) with false. cbv iota.
  rewrite chunk_text_forwards. cbv zeta.
  change (DocumentProcessor.chunk_size Main.processor) with 1000%Z.
  change (DocumentProcessor.chunk_overlap Main.processor) with 200%Z.
  rewrite Hs, generate_embeddings_forwards. simpl outside. rewrite He.
  rewrite (proj2 (Nat.eqb_eq _ _) Hlen). simpl outside. simpl issued.
  fold file_name. fold name. fold documents. rewrite Hu.
  rewrite <- !app_assoc. reflexivity.
Qed.

(** X9.  What the status says when a library fails.  The exception of the PDF
    reader, of the splitter or of the model reaches the user behind two
    contexts, that of [process_pdf] and that of the stage, and the run ends
    with the call that failed. *)
Theorem process_pdf_library_failure (pdf_path : string) (w : world Σ) :
  (forall e s,
      pdf_pages E pdf_path (outside w) = (Raised e, s) ->
      Main.process_pdf E azure_client (Main.FileObject pdf_path) w
      = (Returned ("❌ Error processing file: Error extracting text from PDF: " ++ exn_str e),
         World s (issued w ++ [OpenPdf pdf_path])))
  /\ (forall text w1 e s,
        DocumentProcessor.extract_text_from_pdf E Main.processor pdf_path w
        = (Returned text, w1) ->
        text <> "" ->
        split_text E 1000 200 text (outside w1) = (Raised e, s) ->
        Main.process_pdf E azure_client (Main.FileObject pdf_path) w
        = (Returned ("❌ Error processing file: Error chunking text: " ++ exn_str e),
           World s (issued w1 ++ [SplitText 1000 200 text])))
  /\ (forall text w1 chunks s2 e s,
        DocumentProcessor.extract_text_from_pdf E Main.processor pdf_path w
        = (Returned text, w1) ->
        text <> "" ->
        split_text E 1000 200 text (outside w1) = (Returned chunks, s2) ->
        encode_many E (VStr <$> chunks) false s2 = (Raised e, s) ->
        Main.process_pdf E azure_client (Main.FileObject pdf_path) w
        = (Returned ("❌ Error processing file: Error generating embeddings: " ++ exn_str e),
           World s (issued w1 ++ [SplitText 1000 200 text;
                                  EncodeMany (VStr <$> chunks) false]))).
Proof.
  split; [| split].
  - intros e s Hp. rewrite process_pdf_run. cbv zeta.
    unfold DocumentProcessor.extract_text_from_pdf. run_monad. rewrite Hp. reflexivity.
  - intros text w1 e s Hx Htext Hs. rewrite process_pdf_run. cbv zeta. rewrite Hx.
    destruct text as [| c text']; [contradiction |]. set (text := String c text') in *.
    change (Str.is_empty text) with false. cbv iota.
    rewrite chunk_text_forwards. cbv zeta.
    change (DocumentProcessor.chunk_size Main.processor) with 1000%Z.
    change (DocumentProcessor.chunk_overlap Main.processor) with 200%Z.
    rewrite Hs. reflexivity.
  - intros text w1 chunks s2 e s Hx Htext Hs He. rewrite process_pdf_run. cbv zeta.
    rewrite Hx.
    destruct text as [| c text']; [contradiction |]. set (text := String c text') in *.
    change (Str.is_empty text) with false. cbv iota.
    rewrite chunk_text_forwards. cbv zeta.
    change (DocumentProcessor.chunk_size Main.processor) with 1000%Z.
    change (DocumentProcessor.chunk_overlap Main.processor) with 200%Z.
    rewrite Hs, generate_embeddings_forwards. simpl outside. rewrite He.
    simpl issued. rewrite <- !app_assoc. reflexivity.
Qed.

(** Called with a plain [str], which has no [name], [process_pdf] fails on
    [pdf_file.name]: it returns the message of the [AttributeError] behind
    its own context, and no library has been called. *)
Lemma process_pdf_path_string (path : string) (w : world Σ) :
  Main.process_pdf E azure_client (Main.FilePath path) w
  = (Returned "❌ Error processing file: 'str' object has no attribute 'name'", w).
Proof. reflexivity. Qed.

End Pipeline.

(** ** main.py: the index buttons *)
Section IndexButtons.
Context {Σ : Type} (E : Externals Σ) (azure_client : AzureSearchClient.t).

(** X10.  [create_index()] of main.py always returns a status line.  It asks for
    an index with vectors of dimension 384; when the service answers, the
    line names the index as the service returned it, and when the service
    raises [e] the line is ["❌ Error creating index: "] with the message of
    [e]. *)
Theorem main_create_index (w : world Σ) :
  let index :=
    {| si_name := AzureSearchClient.index_name azure_client;
       si_fields := AzureSearchClient.fields 384;
       si_vector_search := AzureSearchClient.vector_search |} in
  Main.create_index E azure_client w
  = match index_create_or_update E index (outside w) with
    | (Returned result, s) =>
        (Returned ("✅ Index '" ++ si_name result ++ "' created successfully"),
         World s (issued w ++ [IndexCreateOrUpdate index]))
    | (Raised e, s) =>
        (Returned ("❌ Error creating index: " ++ exn_str e),
         World s (issued w ++ [IndexCreateOrUpdate index]))
    end.
Proof.
  intros index. unfold Main.create_index, AzureSearchClient.create_index. run_monad.
  fold index. destruct (index_create_or_update E index (outside w)) as [[result | e] s]; simpl.
  - unfold getitem. rewrite lookup_insert_eq. simpl.
    rewrite lookup_insert_ne by discriminate. rewrite lookup_insert_eq. reflexivity.
  - unfold getitem, AzureSearchClient.failure. rewrite lookup_insert_eq. simpl.
    rewrite lookup_insert_ne by discriminate. rewrite lookup_singleton_eq. reflexivity.
Qed.

(** X11.  [delete_index()] of main.py always returns a status line: the
    confirmation with the name of the client's index when the service
    answers, ["❌ Error deleting index: "] with the message of [e] when it
    raises [e]. *)
Theorem main_delete_index (w : world Σ) :
  let name := AzureSearchClient.index_name azure_client in
  Main.delete_index E azure_client w
  = match index_delete E name (outside w) with
    | (Returned _, s) =>
        (Returned ("✅ " ++ "Index '" ++ name ++ "' deleted successfully"),
         World s (issued w ++ [IndexDelete name]))
    | (Raised e, s) =>
        (Returned ("❌ Error deleting index: " ++ exn_str e),
         World s (issued w ++ [IndexDelete name]))
    end.
Proof.
  intros name. unfold Main.delete_index, AzureSearchClient.delete_index. run_monad.
  fold name. destruct (index_delete E name (outside w)) as [[[] | e] s]; simpl.
  - unfold getitem. rewrite lookup_insert_eq. simpl.
    rewrite lookup_insert_ne by discriminate. rewrite lookup_singleton_eq. reflexivity.
  - unfold getitem, AzureSearchClient.failure. rewrite lookup_insert_eq. simpl.
    rewrite lookup_insert_ne by discriminate. rewrite lookup_singleton_eq. reflexivity.
Qed.

End IndexButtons.

(** ** azure_search.py: the schema, the configuration and the keys *)
Section Schema.
Context {Σ : Type} (E : Externals Σ) (self : AzureSearchClient.t).

(** X12.  The index definition [create_index] sends is consistent, whatever the
    dimension and the index name: it carries the client's index name, it
    has the six fields [id], [content], [source_file], [chunk_index],
    [upload_date] and [content_vector], in this order and so with pairwise
    distinct names, its one key field is [id], its one vector field has the
    requested dimension and a profile the definition declares, and every
    profile names an algorithm the definition declares. *)
Theorem create_index_schema (embedding_dim : Z) (w : world Σ) :
  exists index,
    issued (AzureSearchClient.create_index E self embedding_dim w).2
    = (issued w ++ [IndexCreateOrUpdate index])%list
    /\ si_name index = AzureSearchClient.index_name self
    /\ field_name <$> si_fields index
       = ["id"; "content"; "source_file"; "chunk_index"; "upload_date"; "content_vector"]
    /\ NoDup (field_name <$> si_fields index)
    /\ field_name <$> List.filter is_key (si_fields index) = ["id"]
    /\ (exists profile,
          omap vector_config (si_fields index) = [(embedding_dim, profile)]
          /\ profile ∈ profile_name <$> profiles (si_vector_search index))
    /\ Forall (fun p => algorithm_configuration_name p
                        ∈ algorithm_name <$> algorithms (si_vector_search index))
         (profiles (si_vector_search index)).
Proof.
  eexists. split.
  { unfold AzureSearchClient.create_index. run_monad.
    destruct (index_create_or_update E _ (outside w)) as [[result | e] s]; reflexivity. }
  simpl. split; [reflexivity |]. split; [reflexivity |]. split.
  { apply NoDup_ListNoDup. repeat constructor; simpl; intuition discriminate. }
  split; [reflexivity |]. split.
  { exists "vector-profile". split; [reflexivity | left]. }
  repeat constructor.
Qed.

End Schema.

(** X13.  [AzureSearchClient()] is built exactly when the environment gives a
    non-empty endpoint and a non-empty key and the three constructors of
    the SDK accept them; its index name is the one of the environment,
    [cpa-documents] when the environment has none.  Without an endpoint or
    a key the constructor raises its [ValueError] and builds nothing; with
    both, the exception of the first SDK constructor that raises is the
    constructor's. *)
Theorem client_init (SDK : AzureSearchClient.sdk) (environ : gmap string string) :
  let name := default "cpa-documents" (environ !! "AZURE_SEARCH_INDEX_NAME") in
  (forall client,
      AzureSearchClient.init SDK environ = Returned client <->
      environ !! "AZURE_SEARCH_ENDPOINT" = Some (AzureSearchClient.endpoint client)
      /\ environ !! "AZURE_SEARCH_API_KEY" = Some (AzureSearchClient.api_key client)
      /\ AzureSearchClient.endpoint client <> "" /\ AzureSearchClient.api_key client <> ""
      /\ AzureSearchClient.index_name client = name
      /\ AzureSearchClient.AzureKeyCredential SDK (AzureSearchClient.api_key client)
         = Returned tt
      /\ AzureSearchClient.SearchIndexClient SDK (AzureSearchClient.endpoint client)
           (AzureSearchClient.api_key client) = Returned tt
      /\ AzureSearchClient.SearchClient SDK (AzureSearchClient.endpoint client) name
           (AzureSearchClient.api_key client) = Returned tt)
  /\ (environ !! "AZURE_SEARCH_ENDPOINT" = None \/ environ !! "AZURE_SEARCH_ENDPOINT" = Some ""
      \/ environ !! "AZURE_SEARCH_API_KEY" = None \/ environ !! "AZURE_SEARCH_API_KEY" = Some "" ->
      AzureSearchClient.init SDK environ
      = Raised (ValueError "Missing Azure Search credentials in .env file"))
  /\ (forall endpoint key x,
        environ !! "AZURE_SEARCH_ENDPOINT" = Some endpoint -> endpoint <> "" ->
        environ !! "AZURE_SEARCH_API_KEY" = Some key -> key <> "" ->
        AzureSearchClient.AzureKeyCredential SDK key = Raised x
        \/ (AzureSearchClient.AzureKeyCredential SDK key = Returned tt
            /\ AzureSearchClient.SearchIndexClient SDK endpoint key = Raised x)
        \/ (AzureSearchClient.AzureKeyCredential SDK key = Returned tt
            /\ AzureSearchClient.SearchIndexClient SDK endpoint key = Returned tt
            /\ AzureSearchClient.SearchClient SDK endpoint name key = Raised x) ->
        AzureSearchClient.init SDK environ = Raised x).
Proof.
  intros name. unfold AzureSearchClient.init. fold name. split; [| split].
  - intros [e k n]. simpl.
    destruct (environ !! "AZURE_SEARCH_ENDPOINT") as [e' |],
      (environ !! "AZURE_SEARCH_API_KEY") as [k' |];
      try (split; [discriminate | intros (He & Hk & _); discriminate]).
    destruct e' as [| c e']; simpl.
    { split; [discriminate | intros ([= <-] & _ & Hne & _); contradiction]. }
    destruct k' as [| c' k']; simpl.
    { split; [discriminate | intros (_ & [= <-] & _ & Hne & _); contradiction]. }
    destruct (AzureSearchClient.AzureKeyCredential SDK (String c' k')) as [[] | x] eqn:H1.
    2: { split; [discriminate | intros (_ & [= <-] & _ & _ & _ & H & _); congruence]. }
    destruct (AzureSearchClient.SearchIndexClient SDK (String c e') (String c' k'))
      as [[] | x] eqn:H2.
    2: { split; [discriminate |].
         intros ([= <-] & [= <-] & _ & _ & _ & _ & H & _). congruence. }
    destruct (AzureSearchClient.SearchClient SDK (String c e') name (String c' k'))
      as [[] | x] eqn:H3.
    2: { split; [discriminate |].
         intros ([= <-] & [= <-] & _ & _ & _ & _ & _ & H). congruence. }
    split.
    + intros [= <- <- <-]. repeat split; auto; discriminate.
    + intros ([= <-] & [= <-] & _ & _ & -> & _). reflexivity.
  - destruct (environ !! "AZURE_SEARCH_ENDPOINT") as [[| c e] |],
      (environ !! "AZURE_SEARCH_API_KEY") as [[| c' k] |]; simpl; try reflexivity.
    intros [? | [? | [? | ?]]]; discriminate.
  - intros endpoint key x -> He -> Hk Hx.
    destruct endpoint; [contradiction |]. destruct key; [contradiction |]. simpl.
    destruct Hx as [-> | [(-> & ->) | (-> & -> & ->)]]; reflexivity.
Qed.

Lemma all_chars_app (p : ascii -> bool) (a b : string) :
  all_chars p (a ++ b) = all_chars p a && all_chars p b.
Proof.
  induction a as [| c a IH]; [reflexivity |]. rewrite append_cons. simpl. rewrite IH.
  apply andb_assoc.
Qed.

Lemma all_chars_impl (p q : ascii -> bool) (s : string) :
  (forall c, p c = true -> q c = true) -> all_chars p s = true -> all_chars q s = true.
Proof.
  intros Hpq. induction s as [| c s IH]; simpl; [reflexivity |].
  intros [Hc Hs]%andb_true_iff. rewrite (Hpq c Hc). auto.
Qed.

Lemma replace_dot_free (s : string) : all_chars not_dot (Str.replace "." "_" s) = true.
Proof.
  induction s as [| c s IH]; simpl; [reflexivity |]. rewrite IH, andb_true_r.
  unfold not_dot. destruct (Ascii.eqb_spec c "."); [reflexivity |].
  apply negb_true_iff, Ascii.eqb_neq. assumption.
Qed.

(** X14.  No key has a dot in it, whatever the name of the source file. *)
Theorem document_id_dot_free (source_file : string) (idx : nat) :
  all_chars not_dot (AzureSearchClient.document_id source_file idx) = true.
Proof.
  unfold AzureSearchClient.document_id. rewrite !all_chars_app, replace_dot_free. simpl.
  apply (all_chars_impl is_digit); [| apply str_nat_digits].
  intros c Hc. unfold not_dot. destruct (Ascii.eqb_spec c "."); [subst; discriminate | reflexivity].
Qed.

(** ** main.py: the name of the uploaded file *)

Lemma components_plain (name current : string) :
  all_chars not_slash name = true -> Main.components name current = [current ++ name].
Proof.
  revert current. induction name as [| c name IH]; intros current; simpl.
  - rewrite append_nil_r. reflexivity.
  - intros [Hc Hn]%andb_true_iff. unfold not_slash in Hc.
    apply negb_true_iff in Hc. rewrite Hc, (IH _ Hn), append_assoc. reflexivity.
Qed.

Lemma components_app (a b current : string) :
  Main.components (a ++ "/" ++ b) current
  = (Main.components a current ++ Main.components b "")%list.
Proof.
  revert current. induction a as [| c a IH]; intros current.
  - reflexivity.
  - rewrite append_cons. simpl. destruct (Ascii.eqb c "/"); rewrite IH; reflexivity.
Qed.

(** X15.  The name under which a file is indexed is the last component of its
    path: for a path [dir/name], with [name] free of slashes and neither
    empty nor [.], it is [name]. *)
Theorem path_name_last (dir name : string) :
  all_chars not_slash name = true -> name <> "" -> name <> "." ->
  Main.path_name (dir ++ "/" ++ name) = name.
Proof.
  intros Hplain Hne Hdot. unfold Main.path_name.
  rewrite components_app, (components_plain _ _ Hplain), List.filter_app.
  change ("" ++ name) with name. simpl.
  destruct (String.eqb_spec name ""); [contradiction |].
  destruct (String.eqb_spec name "."); [contradiction |]. simpl.
  apply List.last_last.
Qed.

(** ** azure_search.py: search *)

Lemma hit_complete (result : gmap string pyobj) :
  complete result -> exists h, AzureSearchClient.hit result = Returned h /\ is_hit_of result h.
Proof.
  intros ([c Hc] & [f Hf] & [i Hi]). unfold AzureSearchClient.hit. rewrite Hc, Hf, Hi.
  eexists. split; [reflexivity |]. unfold is_hit_of. rewrite Hc, Hf, Hi.
  split; [apply lookup_insert_eq |].
  split; [rewrite lookup_insert_ne by discriminate; apply lookup_insert_eq |].
  split; [do 2 (rewrite lookup_insert_ne by discriminate); apply lookup_insert_eq |].
  split; [do 3 (rewrite lookup_insert_ne by discriminate); apply lookup_singleton_eq |].
  rewrite !dom_insert_L, dom_singleton_L. set_solver.
Qed.

Lemma hit_incomplete (result : gmap string pyobj) :
  ~ complete result ->
  exists present key rest,
    ["content"; "source_file"; "chunk_index"] = (present ++ key :: rest)%list
    /\ Forall (fun k => is_Some (result !! k)) present
    /\ result !! key = None
    /\ AzureSearchClient.hit result = Raised (KeyError key).
Proof.
  intros Hn. unfold AzureSearchClient.hit.
  destruct (result !! "content") as [c |] eqn:Hc.
  - destruct (result !! "source_file") as [f |] eqn:Hf.
    + destruct (result !! "chunk_index") as [i |] eqn:Hi.
      * exfalso. apply Hn. unfold complete. rewrite Hc, Hf, Hi. eauto.
      * exists ["content"; "source_file"], "chunk_index", [].
        repeat split; [| exact Hi]. repeat constructor; eauto.
    + exists ["content"], "source_file", ["chunk_index"].
      repeat split; [| exact Hf]. repeat constructor; eauto.
  - exists [], "content", ["source_file"; "chunk_index"].
    repeat split; [constructor | exact Hc].
Qed.

Lemma hits_complete (results : list (gmap string pyobj)) :
  Forall complete results ->
  exists found, AzureSearchClient.hits results = Returned found
                /\ Forall2 is_hit_of results found.
Proof.
  induction 1 as [| r results Hr _ (found & Hf & Hall)]; simpl.
  - exists []. split; [reflexivity | constructor].
  - destruct (hit_complete r Hr) as (h & -> & Hh). rewrite Hf.
    exists (h :: found). split; [reflexivity | constructor; assumption].
Qed.

Lemma hits_incomplete (before after : list (gmap string pyobj)) r e :
  Forall complete before -> AzureSearchClient.hit r = Raised e ->
  AzureSearchClient.hits (before ++ r :: after) = Raised e.
Proof.
  intros Hb Hr. induction Hb as [| b before Hc _ IH]; simpl.
  - rewrite Hr. reflexivity.
  - destruct (hit_complete b Hc) as (h & -> & _). rewrite IH. reflexivity.
Qed.

Section Searching.
Context {Σ : Type} (E : Externals Σ) (self : AzureSearchClient.t).

(** X16.  [search_similar] issues one pure vector query: no search text, the
    query vector against [content_vector] with [k_nearest_neighbors =
    top_k], the three fields selected.  When every result of the service has
    these fields, it returns one entry per result, in the order of the
    service: the content under [content], the source file under [source],
    the chunk index under [chunk] and, under [score], the score of the
    service or [0] when the result has none. *)
Theorem search_similar_hits query_embedding (top_k : Z) results (w : world Σ) (s : Σ) :
  let name := AzureSearchClient.index_name self in
  let request :=
    {| search_text := None;
       vector_queries :=
         [ {| vq_vector := query_embedding; vq_k_nearest_neighbors := top_k;
              vq_fields := "content_vector" |} ];
       select := ["content"; "source_file"; "chunk_index"] |} in
  documents_search E name request (outside w) = (Returned results, s) ->
  Forall complete results ->
  exists found,
    AzureSearchClient.search_similar E self query_embedding top_k w
    = (Returned found, World s (issued w ++ [DocumentsSearch name request]))
    /\ Forall2 is_hit_of results found.
Proof.
  intros name request Hs Hall.
  destruct (hits_complete results Hall) as (found & Hf & Hrel).
  exists found. split; [| exact Hrel].
  unfold AzureSearchClient.search_similar. run_monad. fold name. fold request.
  rewrite Hs, Hf. reflexivity.
Qed.

(** X17.  When a result of the service lacks one of the selected fields, the
    results before it having them, [search_similar] raises: the message is
    the context ["Error searching documents: "] and the quoted name of the
    first field that result lacks, in the order [content], [source_file],
    [chunk_index]: the fields before it in that order are present. *)
Theorem search_similar_missing_field query_embedding (top_k : Z) before r after
  (w : world Σ) (s : Σ) :
  let name := AzureSearchClient.index_name self in
  let request :=
    {| search_text := None;
       vector_queries :=
         [ {| vq_vector := query_embedding; vq_k_nearest_neighbors := top_k;
              vq_fields := "content_vector" |} ];
       select := ["content"; "source_file"; "chunk_index"] |} in
  documents_search E name request (outside w) = (Returned (before ++ r :: after)%list, s) ->
  Forall complete before ->
  ~ complete r ->
  exists present key rest,
    ["content"; "source_file"; "chunk_index"] = (present ++ key :: rest)%list
    /\ Forall (fun k => is_Some (r !! k)) present
    /\ r !! key = None
    /\ AzureSearchClient.search_similar E self query_embedding top_k w
       = (Raised (Exception ("Error searching documents: '" ++ key ++ "'")),
          World s (issued w ++ [DocumentsSearch name request])).
Proof.
  intros name request Hs Hb Hr.
  destruct (hit_incomplete r Hr) as (present & key & rest & Hsplit & Hp & Hnone & Hhit).
  exists present, key, rest. split; [exact Hsplit | split; [exact Hp | split; [exact Hnone |]]].
  unfold AzureSearchClient.search_similar. run_monad. fold name. fold request.
  rewrite Hs, (hits_incomplete before after r _ Hb Hhit). reflexivity.
Qed.

End Searching.

(** ** backend/embeddings/app.py: the answers *)
Section Answers.
Context {Σ : Type} (E : Externals Σ).

(** X18.  [POST /embed] with a non-empty string under [text]: the model is asked
    once, for a normalised embedding, and the answer is 200 with the
    embedding, its length as [dimension] and the model name. *)
Theorem embed_success (d : gmap string pyobj) (text : string) (embedding : list float)
  (w : world Σ) (s : Σ) :
  d !! "text" = Some (VStr text) -> text <> "" ->
  encode_one E text true (outside w) = (Returned embedding, s) ->
  EmbeddingApp.embed E {| EmbeddingApp.get_json := Returned (VDict d) |} w
  = (Returned {| EmbeddingApp.body :=
                   {[ "embedding" := VList (VFloat <$> embedding);
                      "dimension" := VInt (Z.of_nat (length embedding));
                      "model" := VStr "all-MiniLM-L6-v2" ]};
                 EmbeddingApp.status_code := 200 |},
     World s (issued w ++ [EncodeOne text true])).
Proof.
  intros Hd Htext Henc. unfold EmbeddingApp.embed. run_monad. simpl.
  rewrite (missing_present _ _ _ Hd), Hd.
  destruct text as [| c text]; [contradiction |]. simpl. rewrite Henc. reflexivity.
Qed.

(** X19.  [POST /embed/batch] with a non-empty list under [texts]: the list goes
    to the model as it is, whatever its elements are, and the answer is 200
    with the rows the model returned, their number as [count] and the
    length of the first row (0 when there is none) as [dimension]. *)
Theorem embed_batch_success (d : gmap string pyobj) (texts : list pyobj)
  (embeddings : list (list float)) (w : world Σ) (s : Σ) :
  d !! "texts" = Some (VList texts) -> texts <> [] ->
  encode_many E texts true (outside w) = (Returned embeddings, s) ->
  EmbeddingApp.embed_batch E {| EmbeddingApp.get_json := Returned (VDict d) |} w
  = (Returned {| EmbeddingApp.body :=
                   {[ "embeddings" := VList ((fun row => VList (VFloat <$> row)) <$> embeddings);
                      "count" := VInt (Z.of_nat (length embeddings));
                      "dimension" := VInt (Z.of_nat (length (default [] (head embeddings))));
                      "model" := VStr "all-MiniLM-L6-v2" ]};
                 EmbeddingApp.status_code := 200 |},
     World s (issued w ++ [EncodeMany texts true])).
Proof.
  intros Hd Htexts Henc. unfold EmbeddingApp.embed_batch. run_monad. simpl.
  rewrite (missing_present _ _ _ Hd), Hd.
  destruct texts as [| t texts]; [contradiction |]. simpl. rewrite Henc.
  destruct embeddings; reflexivity.
Qed.

(** X20.  The handlers never raise, whatever the request and whatever the model
    does: each returns a response, with status 200, or with status 400 or
    500 and a body that holds an error message and nothing else. *)
Theorem handlers_respond (req : EmbeddingApp.request) (w : world Σ) :
  (exists r w', EmbeddingApp.embed E req w = (Returned r, w') /\ well_formed r)
  /\ (exists r w', EmbeddingApp.embed_batch E req w = (Returned r, w') /\ well_formed r)
  /\ (exists r, EmbeddingApp.health w = (Returned r, w) /\ EmbeddingApp.status_code r = 200%Z).
Proof.
  assert (Hbad : forall message code, code = 400%Z \/ code = 500%Z ->
                  well_formed (EmbeddingApp.error_response message code)).
  { intros message code Hc. right. split; [exact Hc | eexists; reflexivity]. }
  split; [| split].
  - unfold EmbeddingApp.embed. run_monad. destruct (EmbeddingApp.get_json req) as [data | e].
    2: { eexists _, _. split; [reflexivity | apply Hbad; auto]. }
    destruct (EmbeddingApp.missing "text" data) as [[|] | e].
    1, 3: eexists _, _; (split; [reflexivity | apply Hbad; auto]).
    destruct (EmbeddingApp.subscript data "text") as [text | e].
    2: { eexists _, _. split; [reflexivity | apply Hbad; auto]. }
    destruct text as [| | | | [| c t] | |];
      try (eexists _, _; split; [reflexivity | apply Hbad; auto]).
    simpl. destruct (encode_one E (String c t) true (outside w)) as [[embedding | e] s];
      eexists _, _; (split; [reflexivity |]); [left; reflexivity | apply Hbad; auto].
  - unfold EmbeddingApp.embed_batch. run_monad.
    destruct (EmbeddingApp.get_json req) as [data | e].
    2: { eexists _, _. split; [reflexivity | apply Hbad; auto]. }
    destruct (EmbeddingApp.missing "texts" data) as [[|] | e].
    1, 3: eexists _, _; (split; [reflexivity | apply Hbad; auto]).
    destruct (EmbeddingApp.subscript data "texts") as [texts | e].
    2: { eexists _, _. split; [reflexivity | apply Hbad; auto]. }
    destruct texts as [| | | | | [| t l] |];
      try (eexists _, _; split; [reflexivity | apply Hbad; auto]).
    simpl. destruct (encode_many E (t :: l) true (outside w)) as [[embeddings | e] s];
      eexists _, _; (split; [reflexivity |]); [left; reflexivity | apply Hbad; auto].
  - eexists. split; reflexivity.
Qed.

(** X21.  An internal failure is answered with 500 and its message: a body Flask
    cannot decode ([get_json] raises) before the model is asked anything,
    and an exception of the model after the one call that raised it. *)
Theorem handler_internal_failure (w : world Σ) :
  (forall e,
      EmbeddingApp.embed E {| EmbeddingApp.get_json := Raised e |} w
      = (Returned {| EmbeddingApp.body := {[ "error" := VStr (exn_str e) ]};
                     EmbeddingApp.status_code := 500 |}, w)
      /\ EmbeddingApp.embed_batch E {| EmbeddingApp.get_json := Raised e |} w
         = (Returned {| EmbeddingApp.body := {[ "error" := VStr (exn_str e) ]};
                        EmbeddingApp.status_code := 500 |}, w))
  /\ (forall (d : gmap string pyobj) text e s,
        d !! "text" = Some (VStr text) -> text <> "" ->
        encode_one E text true (outside w) = (Raised e, s) ->
        EmbeddingApp.embed E {| EmbeddingApp.get_json := Returned (VDict d) |} w
        = (Returned {| EmbeddingApp.body := {[ "error" := VStr (exn_str e) ]};
                       EmbeddingApp.status_code := 500 |},
           World s (issued w ++ [EncodeOne text true])))
  /\ (forall (d : gmap string pyobj) texts e s,
        d !! "texts" = Some (VList texts) -> texts <> [] ->
        encode_many E texts true (outside w) = (Raised e, s) ->
        EmbeddingApp.embed_batch E {| EmbeddingApp.get_json := Returned (VDict d) |} w
        = (Returned {| EmbeddingApp.body := {[ "error" := VStr (exn_str e) ]};
                       EmbeddingApp.status_code := 500 |},
           World s (issued w ++ [EncodeMany texts true]))).
Proof.
  split; [| split].
  - intros e. split; reflexivity.
  - intros d text e s Hd Htext Henc. unfold EmbeddingApp.embed. run_monad. simpl.
    rewrite (missing_present _ _ _ Hd), Hd.
    destruct text as [| c text]; [contradiction |]. simpl. rewrite Henc. reflexivity.
  - intros d texts e s Hd Htexts Henc. unfold EmbeddingApp.embed_batch. run_monad. simpl.
    rewrite (missing_present _ _ _ Hd), Hd.
    destruct texts as [| t texts]; [contradiction |]. simpl. rewrite Henc. reflexivity.
Qed.

(** X22.  A falsy body ([null], [false], [0], [""], [[]], [{}]) is answered like
    a missing field by both handlers, and so is, by [POST /embed/batch], an
    object without [texts]: 400 with ["Missing text field"], respectively
    ["Missing texts field"], and the model is not asked. *)
Theorem missing_field_answers (w : world Σ) :
  (forall data,
      Py.truthy data = false ->
      EmbeddingApp.embed E {| EmbeddingApp.get_json := Returned data |} w
      = (Returned {| EmbeddingApp.body := {[ "error" := VStr "Missing text field" ]};
                     EmbeddingApp.status_code := 400 |}, w)
      /\ EmbeddingApp.embed_batch E {| EmbeddingApp.get_json := Returned data |} w
         = (Returned {| EmbeddingApp.body := {[ "error" := VStr "Missing texts field" ]};
                        EmbeddingApp.status_code := 400 |}, w))
  /\ (forall d : gmap string pyobj,
        d !! "texts" = None ->
        EmbeddingApp.embed_batch E {| EmbeddingApp.get_json := Returned (VDict d) |} w
        = (Returned {| EmbeddingApp.body := {[ "error" := VStr "Missing texts field" ]};
                       EmbeddingApp.status_code := 400 |}, w)).
Proof.
  split.
  - intros data Hf. unfold EmbeddingApp.embed, EmbeddingApp.embed_batch. run_monad. simpl.
    unfold EmbeddingApp.missing. rewrite Hf. split; reflexivity.
  - intros d Hd. unfold EmbeddingApp.embed_batch. run_monad. simpl.
    rewrite (missing_absent _ _ Hd). reflexivity.
Qed.

(** X23.  A truthy body that is not an object never reaches the model.  [POST
    /embed] answers 400 when the membership test ['text' in data] is false
    (a list without the string, a string without the substring), and 500
    otherwise: when the test itself raises (a number, [true]) and when it
    holds, because [data['text']] then raises. *)
Theorem embed_body_not_object (data : pyobj) (w : world Σ) :
  Py.truthy data = true -> (forall d, data <> VDict d) ->
  exists r,
    EmbeddingApp.embed E {| EmbeddingApp.get_json := Returned data |} w = (Returned r, w)
    /\ well_formed r
    /\ EmbeddingApp.status_code r
       = match EmbeddingApp.contains "text" data with
         | Returned false => 400%Z
         | _ => 500%Z
         end.
Proof.
  intros Ht Hnd. unfold EmbeddingApp.embed. run_monad. simpl.
  unfold EmbeddingApp.missing. rewrite Ht. simpl.
  destruct data as [| b | z | f | s | l | d]; simpl in *;
    try (eexists; split; [reflexivity | split; [right; split; eauto | reflexivity]]).
  - destruct (Str.contains "text" s);
      eexists; (split; [reflexivity | split; [right; split; eauto | reflexivity]]).
  - destruct (existsb (Py.eq_str "text") l);
      eexists; (split; [reflexivity | split; [right; split; eauto | reflexivity]]).
  - destruct (Hnd d eq_refl).
Qed.

End Answers.

(** ** The further properties at work in the sample worlds *)

(** The text of the sample PDF, as extraction returns it. *)
Lemma extract_text_trimmed_witness :
  let text :=
    "--- Page 1 ---" ++ Str.nl ++ Str.nl ++ "Tax rules." ++ Str.nl ++ Str.nl
    ++ "--- Page 3 ---" ++ Str.nl ++ Str.nl ++ "More." in
  starts_with_space text = false /\ ends_with_space text = false.
Proof.
  apply (extract_text_trimmed Sample.externals Main.processor "/tmp/gradio/tax.2024.pdf" _
           Sample.start (World ∅ [OpenPdf "/tmp/gradio/tax.2024.pdf"])).
  vm_compute. reflexivity.
Defined.

(** Two pages with text around one without: the third page is [Page 3]. *)
Lemma read_pages_marker_witness :
  exists text,
    DocumentProcessor.read_pages 0 [Returned "Tax rules."; Returned ""] "" = Returned text
    /\ DocumentProcessor.read_pages 0 [Returned "Tax rules."; Returned ""; Returned "More."] ""
       = Returned ((text ++ Str.nl ++ Str.nl ++ "--- Page " ++ "3" ++ " ---" ++ Str.nl ++ Str.nl)
                   ++ "More.").
Proof.
  apply (read_pages_marker [Returned "Tax rules."; Returned ""] "More.").
  - repeat constructor; eexists; reflexivity.
  - discriminate.
Defined.

(** The PDF whose two pages carry no text. *)
Lemma extract_text_blank_witness :
  DocumentProcessor.extract_text_from_pdf Sample.externals Main.processor "/tmp/blank.pdf"
    Sample.start
  = (Returned "", World ∅ [OpenPdf "/tmp/blank.pdf"]).
Proof.
  apply (extract_text_blank Sample.externals Main.processor "/tmp/blank.pdf"
           [Returned ""; Returned ""] Sample.start ∅).
  - reflexivity.
  - repeat constructor.
Defined.

(** The PDF whose second page cannot be read. *)
Lemma extract_text_page_failure_witness :
  DocumentProcessor.extract_text_from_pdf Scenario.damaged_page Main.processor "/tmp/scan.pdf"
    Sample.start
  = (Raised (Exception "Error extracting text from PDF: Invalid page stream"),
     World ∅ [OpenPdf "/tmp/scan.pdf"]).
Proof.
  apply (extract_text_page_failure Scenario.damaged_page Main.processor "/tmp/scan.pdf"
           [Returned "Tax rules."] [Returned "More."] (Exception "Invalid page stream")
           Sample.start ∅).
  - reflexivity.
  - repeat constructor. eexists. reflexivity.
Defined.

(** Two chunks, accepted by the sample service. *)
Lemma upload_documents_value_witness :
  (AzureSearchClient.upload_documents Sample.externals Sample.client ["a"; "b"]
     [Sample.vector; Sample.vector] "tax.2024.pdf" Sample.start).1
  = Returned {[ "success" := SBool true; "count" := SInt 2;
                "index_name" := SStr "cpa-documents";
                "message" := SStr "Uploaded 2 documents successfully" ]}.
Proof.
  pose proof (proj1 (upload_documents_value Sample.externals Sample.client ["a"; "b"]
                       [Sample.vector; Sample.vector] "tax.2024.pdf" Sample.start eq_refl)
                tt _ eq_refl) as H.
  rewrite H. reflexivity.
Defined.

(** The file name of an upload in Gradio's temporary directory. *)
Lemma path_name_last_witness :
  Main.path_name ("/tmp/gradio" ++ "/" ++ "tax.2024.pdf") = "tax.2024.pdf".
Proof. apply path_name_last; [reflexivity | discriminate | discriminate]. Defined.

(** The sample PDF through the whole pipeline. *)
Lemma process_pdf_success_witness :
  let text :=
    "--- Page 1 ---" ++ Str.nl ++ Str.nl ++ "Tax rules." ++ Str.nl ++ Str.nl
    ++ "--- Page 3 ---" ++ Str.nl ++ Str.nl ++ "More." in
  (Main.process_pdf Sample.externals Sample.client (Main.FileObject "/tmp/gradio/tax.2024.pdf")
     Sample.start).1
  = Returned ((Status.uploading "tax.2024.pdf" text [text] [Sample.vector]
               ++ "✅ Successfully uploaded 1 documents to Azure" ++ Str.nl)
              ++ "📊 Index: cpa-documents" ++ Str.nl).
Proof.
  intros text.
  rewrite (process_pdf_success Sample.externals Sample.client "/tmp/gradio/tax.2024.pdf" text
             [text] [Sample.vector] Sample.start
             (World ∅ [OpenPdf "/tmp/gradio/tax.2024.pdf"]) ∅ ∅
             (Sample.upsert
                (AzureSearchClient.build_documents [text] [Sample.vector] "tax.2024.pdf"
                   "2024-03-09T14:05:07Z") ∅) tt);
    first [reflexivity | discriminate | vm_compute; reflexivity].
Defined.

(** The model returns no vector for the one chunk. *)
Lemma process_pdf_count_mismatch_witness :
  let text :=
    "--- Page 1 ---" ++ Str.nl ++ Str.nl ++ "Tax rules." ++ Str.nl ++ Str.nl
    ++ "--- Page 3 ---" ++ Str.nl ++ Str.nl ++ "More." in
  Main.process_pdf Scenario.model_silent Sample.client
    (Main.FileObject "/tmp/gradio/tax.2024.pdf") Sample.start
  = (Returned (Status.uploading "tax.2024.pdf" text [text] []
               ++ "❌ Upload failed: Number of chunks must match number of embeddings"
               ++ Str.nl),
     World ∅ [OpenPdf "/tmp/gradio/tax.2024.pdf"; SplitText 1000 200 text;
              EncodeMany [VStr text] false]).
Proof.
  intros text.
  apply (process_pdf_count_mismatch Scenario.model_silent Sample.client
           "/tmp/gradio/tax.2024.pdf" text [text] [] Sample.start
           (World ∅ [OpenPdf "/tmp/gradio/tax.2024.pdf"]) ∅ ∅);
    first [reflexivity | discriminate | vm_compute; reflexivity].
Defined.

(** The search service cannot be reached when the batch is sent. *)
Lemma process_pdf_upload_refused_witness :
  let text :=
    "--- Page 1 ---" ++ Str.nl ++ Str.nl ++ "Tax rules." ++ Str.nl ++ Str.nl
    ++ "--- Page 3 ---" ++ Str.nl ++ Str.nl ++ "More." in
  (Main.process_pdf Scenario.service_down Sample.client
     (Main.FileObject "/tmp/gradio/tax.2024.pdf") Sample.start).1
  = Returned (Status.uploading "tax.2024.pdf" text [text] [Sample.vector]
              ++ "❌ Upload failed: Service unavailable" ++ Str.nl).
Proof.
  intros text.
  rewrite (process_pdf_upload_refused Scenario.service_down Sample.client
             "/tmp/gradio/tax.2024.pdf" text [text] [Sample.vector] Sample.start
             (World ∅ [OpenPdf "/tmp/gradio/tax.2024.pdf"]) ∅ ∅ ∅
             (Exception "Service unavailable"));
    first [reflexivity | discriminate | vm_compute; reflexivity].
Defined.

(** The splitter raises on the text of the sample PDF. *)
Lemma process_pdf_library_failure_witness :
  (Main.process_pdf Scenario.splitter_down Sample.client
     (Main.FileObject "/tmp/gradio/tax.2024.pdf") Sample.start).1
  = Returned "❌ Error processing file: Error chunking text: bad separator".
Proof.
  pose proof (proj1 (proj2 (process_pdf_library_failure Scenario.splitter_down Sample.client
                              "/tmp/gradio/tax.2024.pdf" Sample.start))) as H.
  rewrite (H ("--- Page 1 ---" ++ Str.nl ++ Str.nl ++ "Tax rules." ++ Str.nl ++ Str.nl
              ++ "--- Page 3 ---" ++ Str.nl ++ Str.nl ++ "More.")
             (World ∅ [OpenPdf "/tmp/gradio/tax.2024.pdf"]) (ValueError "bad separator") ∅);
    first [reflexivity | discriminate | vm_compute; reflexivity].
Defined.

(** Two results of the service, the second without a score. *)
Lemma search_similar_hits_witness :
  exists found,
    (AzureSearchClient.search_similar
       (Scenario.working [Scenario.result_scored; Scenario.result_unscored]) Sample.client
       Sample.vector 5 Sample.start).1 = Returned found
    /\ (fun h => h !! "score") <$> found = [Some (VFloat 0.5%float); Some (VInt 0)].
Proof.
  destruct (search_similar_hits
              (Scenario.working [Scenario.result_scored; Scenario.result_unscored])
              Sample.client Sample.vector 5
              [Scenario.result_scored; Scenario.result_unscored] Sample.start ∅ eq_refl)
    as (found & Hrun & Hhits).
  - repeat constructor; eexists; reflexivity.
  - exists found. rewrite Hrun. split; [reflexivity |].
    inversion Hhits as [| r1 h1 rs1 hs1 (_ & _ & _ & H1 & _) Hrest]; subst.
    inversion Hrest as [| r2 h2 rs2 hs2 (_ & _ & _ & H2 & _) Hnil]; subst.
    inversion Hnil; subst. simpl. rewrite H1, H2. reflexivity.
Defined.

(** The second result of the service has its content and neither its source
    file nor its chunk index: the error names [source_file]. *)
Lemma search_similar_missing_field_witness :
  (AzureSearchClient.search_similar
     (Scenario.working [Scenario.result_scored; Scenario.result_content_only])
     Sample.client Sample.vector 5 Sample.start).1
  = Raised (Exception "Error searching documents: 'source_file'").
Proof.
  destruct (search_similar_missing_field
              (Scenario.working [Scenario.result_scored; Scenario.result_content_only])
              Sample.client Sample.vector 5 [Scenario.result_scored]
              Scenario.result_content_only [] Sample.start ∅ eq_refl)
    as (present & key & rest & Hsplit & Hp & Hnone & Hrun).
  - repeat constructor; eexists; reflexivity.
  - intros (_ & [f Hf] & _). vm_compute in Hf. discriminate.
  - rewrite Hrun. simpl.
    destruct present as [| k1 [| k2 [| k3 [| k4 present]]]]; simpl in Hsplit;
      try discriminate; injection Hsplit as; subst.
    + vm_compute in Hnone. discriminate.
    + reflexivity.
    + inversion Hp as [| ? ? _ Hp']; subst. inversion Hp' as [| ? ? [x Hx] _]; subst.
      vm_compute in Hx. discriminate.
Defined.

(** The requests of test_service.py, answered by the sample model. *)
Lemma embed_success_witness :
  EmbeddingApp.embed Sample.externals
    {| EmbeddingApp.get_json :=
         Returned (VDict {[ "text" := VStr "What are the tax implications for small businesses?" ]}) |}
    Sample.start
  = (Returned {| EmbeddingApp.body :=
                   {[ "embedding" := VList (VFloat <$> Sample.vector);
                      "dimension" := VInt 4;
                      "model" := VStr "all-MiniLM-L6-v2" ]};
                 EmbeddingApp.status_code := 200 |},
     World ∅ [EncodeOne "What are the tax implications for small businesses?" true]).
Proof.
  apply (embed_success Sample.externals _ _ Sample.vector Sample.start ∅);
    [reflexivity | discriminate | reflexivity].
Defined.

Lemma embed_batch_success_witness :
  let texts :=
    [VStr "Tax filing deadline"; VStr "Audit procedures"; VStr "Financial reporting"] in
  EmbeddingApp.embed_batch Sample.externals
    {| EmbeddingApp.get_json := Returned (VDict {[ "texts" := VList texts ]}) |} Sample.start
  = (Returned {| EmbeddingApp.body :=
                   {[ "embeddings" :=
                        VList ((fun row => VList (VFloat <$> row))
                                 <$> [Sample.vector; Sample.vector; Sample.vector]);
                      "count" := VInt 3;
                      "dimension" := VInt 4;
                      "model" := VStr "all-MiniLM-L6-v2" ]};
                 EmbeddingApp.status_code := 200 |},
     World ∅ [EncodeMany texts true]).
Proof.
  intros texts.
  apply (embed_batch_success Sample.externals _ texts
           [Sample.vector; Sample.vector; Sample.vector] Sample.start ∅);
    [reflexivity | discriminate | reflexivity].
Defined.

(** The body [5]. *)
Lemma embed_body_not_object_witness :
  exists r,
    EmbeddingApp.embed Sample.externals {| EmbeddingApp.get_json := Returned (VInt 5) |}
      Sample.start = (Returned r, Sample.start)
    /\ well_formed r /\ EmbeddingApp.status_code r = 500%Z.
Proof.
  apply (embed_body_not_object Sample.externals (VInt 5) Sample.start); [reflexivity |].
  intros d. discriminate.
Defined.

(** The model runs out of memory on a valid request. *)
Lemma handler_internal_failure_witness :
  EmbeddingApp.embed Scenario.model_down
    {| EmbeddingApp.get_json := Returned (VDict {[ "text" := VStr "Audit procedures" ]}) |}
    Sample.start
  = (Returned {| EmbeddingApp.body := {[ "error" := VStr "CUDA out of memory" ]};
                 EmbeddingApp.status_code := 500 |},
     World ∅ [EncodeOne "Audit procedures" true]).
Proof.
  apply (proj1 (proj2 (handler_internal_failure Scenario.model_down Sample.start))
           _ _ (Exception "CUDA out of memory") ∅);
    [reflexivity | discriminate | reflexivity].
Defined.

(** The body [null] sent to the batch endpoint. *)
Lemma missing_field_answers_witness :
  EmbeddingApp.embed_batch Sample.externals {| EmbeddingApp.get_json := Returned VNone |}
    Sample.start
  = (Returned {| EmbeddingApp.body := {[ "error" := VStr "Missing texts field" ]};
                 EmbeddingApp.status_code := 400 |}, Sample.start).
Proof.
  apply (proj2 (proj1 (missing_field_answers Sample.externals Sample.start) VNone eq_refl)).
Defined.

(** An environment with credentials whose endpoint is not [https]: the
    first client of the SDK refuses it. *)
Lemma client_init_witness :
  AzureSearchClient.init Scenario.sdk
    {[ "AZURE_SEARCH_ENDPOINT" := "http://example.search.windows.net";
       "AZURE_SEARCH_API_KEY" := "key" ]}
  = Raised (ValueError ("Bearer token authentication is not permitted "
                        ++ "for non-TLS protected (non-https) URLs.")).
Proof.
  apply (proj2 (proj2 (client_init Scenario.sdk _))
           "http://example.search.windows.net" "key");
    [reflexivity | discriminate | reflexivity | discriminate |].
  right. left. split; reflexivity.
Defined.
